(** * MedBridge voice loops (static/app.js): a shallow embedding

    The check-in and the booking voice loops of [static/app.js] are
    embedded as state transformers over one [World], the global scope of
    the page: the two state objects [checkinState] and [bookingState], the
    module-level handles [checkinRec], [checkinUtterance], [bookingRec],
    [bookingUtterance], the page elements the loops write to, and the host
    facilities they call (the [window.speechSynthesis] queue, the
    [SpeechRecognition] objects, [setTimeout], [fetch], [alert]).

    The file holds two revisions of the script one after the other; the
    later one, which has both loops, is the one embedded here.

    Conventions.
    - A JavaScript function is a computation in the monad [JS]: it maps a
      world to a completion (normal or thrown) and a new world.
    - An [async] function is split at its [await]: the part that runs up to
      the [fetch] call, and the part that runs when the promise settles.
    - Callbacks ([utterance.onend], [rec.onresult], timer bodies) are
      computations of their own; the host decides when they run ([Event]).
      What the engines report is not constrained; a property that depends
      on what a recognition engine may deliver to a recognizer says so
      ([engine_delivers]).
    - The static elements of the page (index.html is not part of the
      sources studied here) are taken to exist, so [getElementById] never
      returns [null] and the [if (el)] guards are always taken.  The views
      the page has are a parameter ([hasView]).
    - A string is held as the bytes of its UTF-8 form, which is also what
      the string literals of this file are. *)

From Stdlib Require Import String Ascii List Bool Arith Lia.
From stdpp Require Import base option list.
Import ListNotations.
Local Open Scope string_scope.

(** ** JavaScript strings *)

Module Str.

(** The white space and line terminator characters of ECMAScript, the ones
    [String.prototype.trim] removes, by the bytes of their UTF-8 form:
    U+0009 to U+000D and U+0020 (one byte); U+00A0 (two bytes); U+1680,
    U+2000 to U+200A, U+2028, U+2029, U+202F, U+205F, U+3000 and U+FEFF
    (three bytes). *)
Definition whiteSpace1 (a : nat) : bool :=
  (Nat.leb 9 a && Nat.leb a 13) || Nat.eqb a 32.

Definition whiteSpace2 (a b : nat) : bool :=
  Nat.eqb a 194 && Nat.eqb b 160.

Definition whiteSpace3 (a b c : nat) : bool :=
  (Nat.eqb a 225 && Nat.eqb b 154 && Nat.eqb c 128)
  || (Nat.eqb a 226 && Nat.eqb b 128
      && ((Nat.leb 128 c && Nat.leb c 138) || Nat.eqb c 168 || Nat.eqb c 169
          || Nat.eqb c 175))
  || (Nat.eqb a 226 && Nat.eqb b 129 && Nat.eqb c 159)
  || (Nat.eqb a 227 && Nat.eqb b 128 && Nat.eqb c 128)
  || (Nat.eqb a 239 && Nat.eqb b 187 && Nat.eqb c 191).

(** The rest of [s] after the white space character it begins with, if it
    begins with one. *)
Definition whiteSpace (s : string) : option string :=
  match s with
  | EmptyString => None
  | String a s1 =>
      if whiteSpace1 (nat_of_ascii a) then Some s1 else
      match s1 with
      | EmptyString => None
      | String b s2 =>
          if whiteSpace2 (nat_of_ascii a) (nat_of_ascii b) then Some s2 else
          match s2 with
          | EmptyString => None
          | String c s3 =>
              if whiteSpace3 (nat_of_ascii a) (nat_of_ascii b) (nat_of_ascii c)
              then Some s3 else None
          end
      end
  end.

(** [s] without the white space characters it begins with. *)
Fixpoint trimStart (s : string) : string :=
  match s with
  | EmptyString => EmptyString
  | String a s1 =>
      if whiteSpace1 (nat_of_ascii a) then trimStart s1 else
      match s1 with
      | EmptyString => s
      | String b s2 =>
          if whiteSpace2 (nat_of_ascii a) (nat_of_ascii b) then trimStart s2 else
          match s2 with
          | EmptyString => s
          | String c s3 =>
              if whiteSpace3 (nat_of_ascii a) (nat_of_ascii b) (nat_of_ascii c)
              then trimStart s3 else s
          end
      end
  end.

(** [s] consists of white space characters only. *)
Fixpoint blank (s : string) : bool :=
  match s with
  | EmptyString => true
  | String a s1 =>
      if whiteSpace1 (nat_of_ascii a) then blank s1 else
      match s1 with
      | EmptyString => false
      | String b s2 =>
          if whiteSpace2 (nat_of_ascii a) (nat_of_ascii b) then blank s2 else
          match s2 with
          | EmptyString => false
          | String c s3 =>
              if whiteSpace3 (nat_of_ascii a) (nat_of_ascii b) (nat_of_ascii c)
              then blank s3 else false
          end
      end
  end.

(** [s] without the white space characters it ends with: it is cut where
    the rest is blank.  (No white space character begins with a byte that
    continues another character, so the cut never falls inside one.) *)
Fixpoint trimEnd (s : string) : string :=
  match s with
  | EmptyString => EmptyString
  | String a s1 => if blank s then EmptyString else String a (trimEnd s1)
  end.

(** [String.prototype.trim] *)
Definition trim (s : string) : string := trimEnd (trimStart s).

(** Truthiness of a string: [!s] holds exactly for the empty string. *)
Definition truthy (s : string) : bool :=
  match s with EmptyString => false | String _ _ => true end.

(** [a || b] on strings. *)
Definition or (a b : string) : string := if truthy a then a else b.

(** The string of the given bytes. *)
Definition bytes (l : list nat) : string :=
  string_of_list_ascii (map ascii_of_nat l).

End Str.

(** ** Data *)

(** The two loops of the page. *)
Inductive Loop := CheckinLoop | BookingLoop.

Definition Loop_eqb (a b : Loop) : bool :=
  match a, b with
  | CheckinLoop, CheckinLoop | BookingLoop, BookingLoop => true
  | _, _ => false
  end.

(** Truthiness of an id received from the backend ([null], or a number). *)
Definition truthyId (i : option nat) : bool :=
  match i with Some (S _) => true | _ => false end.

(** [SPEECH_LANG_MAP] *)
Definition SPEECH_LANG_MAP : list (string * string) :=
  [ ("en", "en-SG"); ("zh", "zh-CN"); ("ms", "ms-MY"); ("ta", "ta-SG");
    ("zh-hokkien", "zh-CN"); ("zh-teochew", "zh-CN");
    ("zh-cantonese", "zh-HK"); ("zh-hakka", "zh-CN");
    ("zh-hainanese", "zh-CN"); ("hi", "hi-IN"); ("tl", "fil-PH");
    ("vi", "vi-VN"); ("th", "th-TH"); ("id", "id-ID"); ("my", "my-MM");
    ("bn", "bn-BD"); ("km", "km-KH"); ("lo", "lo-LA") ].

Fixpoint assoc (k : string) (m : list (string * string)) : option string :=
  match m with
  | [] => None
  | (k', v) :: m' => if String.eqb k k' then Some v else assoc k m'
  end.

(** What a lookup in [SPEECH_LANG_MAP] finds: a tag of the map, a property
    of [Object.prototype] (given by the string it converts to), or
    nothing. *)
Inductive Property :=
  | Own (tag : string)
  | FromPrototype (text : string)
  | Undefined.

(** A [SpeechSynthesisUtterance] handed to [speechSynthesis.speak].  Rate,
    pitch and the voice picked for the locale are constants of the loop
    and are left out. *)
Record Utterance := MkUtterance {
  utt_id : nat;
  utt_owner : Loop;
  utt_text : string;
  utt_lang : string
}.

(** A [SpeechRecognition] object with the attributes the loops set,
    together with the [finalTranscript] variable its handlers close over
    (one per call of [startCheckinListening] / [startBookingListening]). *)
Record Recognizer := MkRecognizer {
  rec_lang : string;
  continuous : bool;
  interimResults : bool;
  finalTranscript : string;
  rec_started : bool;      (* [start()] was called and did not throw *)
  rec_stopped : bool       (* [stop()] was called and did not throw *)
}.

(** One entry of [event.results]: the transcript of its first alternative
    and its [isFinal] mark. *)
Record SpeechResult := MkResult {
  transcript : string;
  isFinal : bool
}.

(** A [SpeechRecognitionEvent] of type [result]. *)
Record ResultEvent := MkResultEvent {
  resultIndex : nat;
  results : list SpeechResult
}.

(** The callbacks a loop passes to [setTimeout].  The send callback reads
    the [finalTranscript] of its recognizer when it runs. *)
Inductive Timer :=
  | StartListening             (* () => startCheckinListening() / startBookingListening *)
  | SendTranscript (r : nat).  (* () => send...Message(finalTranscript.trim()) *)

(** A [fetch] of [/message]: one call to the conversation service.
    [req_settled] records that its promise has settled. *)
Record Request := MkRequest {
  req_session : option nat;
  req_message : string;
  req_settled : bool
}.

Inductive Role := assistant | user.

(** ** The check-in loop: [checkinState] and its page elements *)

Module Checkin.

Record state := State {
  patientId : option nat;
  sessionId : option nat;
  langCode : string;
  langName : string;
  isAutoMode : bool;
  isSpeaking : bool;
  isListening : bool
}.

Definition set_patientId v '(State _ b c d e f g) := State v b c d e f g.
Definition set_sessionId v '(State a _ c d e f g) := State a v c d e f g.
Definition set_langCode v '(State a b _ d e f g) := State a b v d e f g.
Definition set_langName v '(State a b c _ e f g) := State a b c v e f g.
Definition set_isAutoMode v '(State a b c d _ f g) := State a b c d v f g.
Definition set_isSpeaking v '(State a b c d e _ g) := State a b c d e v g.
Definition set_isListening v '(State a b c d e f _) := State a b c d e f v.

(** The elements of the check-in view, by what the loop reads and writes.
    [step] is the step of the view marked active, the empty string when
    none is; of the children of [#checkin-messages] the bubbles are kept
    in their order and the typing indicators are counted. *)
Record view := View {
  step : string;                   (* the active .checkin-step *)
  messages : list (Role * string); (* #checkin-messages: the bubbles *)
  typing : nat;                    (* the #checkin-typing elements in #checkin-messages *)
  inputValue : string;             (* #checkin-input .value *)
  sendDisabled : bool;             (* #btn-checkin-send .disabled *)
  sendToDoctorDisabled : bool;     (* #btn-send-to-doctor .disabled *)
  micRecording : bool;             (* #btn-checkin-mic has class recording *)
  voiceStatusActive : bool;        (* #checkin-voice-status has class active *)
  statusText : string;             (* #checkin-status-text *)
  indicatorHidden : bool;          (* #checkin-voice-indicator has class hidden *)
  indicatorText : string;          (* #checkin-voice-status-text *)
  autoOff : bool;                  (* #btn-auto-toggle has class auto-off *)
  autoLabel : string               (* #auto-mode-label *)
}.

Definition set_step v '(View _ b c d e f g h i j k l m) := View v b c d e f g h i j k l m.
Definition set_messages v '(View a _ c d e f g h i j k l m) := View a v c d e f g h i j k l m.
Definition set_typing v '(View a b _ d e f g h i j k l m) := View a b v d e f g h i j k l m.
Definition set_inputValue v '(View a b c _ e f g h i j k l m) := View a b c v e f g h i j k l m.
Definition set_sendDisabled v '(View a b c d _ f g h i j k l m) := View a b c d v f g h i j k l m.
Definition set_sendToDoctorDisabled v '(View a b c d e _ g h i j k l m) := View a b c d e v g h i j k l m.
Definition set_micRecording v '(View a b c d e f _ h i j k l m) := View a b c d e f v h i j k l m.
Definition set_voiceStatusActive v '(View a b c d e f g _ i j k l m) := View a b c d e f g v i j k l m.
Definition set_statusText v '(View a b c d e f g h _ j k l m) := View a b c d e f g h v j k l m.
Definition set_indicatorHidden v '(View a b c d e f g h i _ k l m) := View a b c d e f g h i v k l m.
Definition set_indicatorText v '(View a b c d e f g h i j _ l m) := View a b c d e f g h i j v l m.
Definition set_autoOff v '(View a b c d e f g h i j k _ m) := View a b c d e f g h i j k v m.
Definition set_autoLabel v '(View a b c d e f g h i j k l _) := View a b c d e f g h i j k l v.

End Checkin.

(** ** The booking loop: [bookingState] and its page elements *)

Module Booking.

Record state := State {
  patientId : option nat;
  bookingSessionId : option nat;
  langCode : string;
  langName : string;
  isAutoMode : bool;
  isSpeaking : bool;
  isListening : bool;
  selectedSlotId : option nat
}.

Definition set_patientId v '(State _ b c d e f g h) := State v b c d e f g h.
Definition set_bookingSessionId v '(State a _ c d e f g h) := State a v c d e f g h.
Definition set_langCode v '(State a b _ d e f g h) := State a b v d e f g h.
Definition set_langName v '(State a b c _ e f g h) := State a b c v e f g h.
Definition set_isAutoMode v '(State a b c d _ f g h) := State a b c d v f g h.
Definition set_isSpeaking v '(State a b c d e _ g h) := State a b c d e v g h.
Definition set_isListening v '(State a b c d e f _ h) := State a b c d e f v h.
Definition set_selectedSlotId v '(State a b c d e f g _) := State a b c d e f g v.

Record view := View {
  step : string;                   (* the active step of #view-booking, empty for none *)
  messages : list (Role * string); (* #booking-messages: the bubbles *)
  inputValue : string;             (* #booking-input .value *)
  statusText : string;             (* #booking-status-text *)
  indicatorHidden : bool;          (* #booking-voice-indicator has class hidden *)
  indicatorText : string;          (* #booking-voice-status-text *)
  micActive : bool;                (* #btn-booking-mic has class active *)
  autoLabel : string;              (* #booking-auto-mode-label *)
  cardHidden : bool;               (* #booking-state-card has class hidden *)
  normalizedHidden : bool;         (* #booking-normalized-row has class hidden *)
  normalizedText : string;         (* #booking-normalized-text *)
  slots : list nat;                (* #booking-slots-list: the slot ids shown *)
  confirmHidden : bool;            (* #booking-confirm-actions has class hidden *)
  confirmedRef : string            (* #booking-confirmed-details: the reference shown *)
}.

Definition set_step v '(View _ b c d e f g h i j k l m n) := View v b c d e f g h i j k l m n.
Definition set_messages v '(View a _ c d e f g h i j k l m n) := View a v c d e f g h i j k l m n.
Definition set_inputValue v '(View a b _ d e f g h i j k l m n) := View a b v d e f g h i j k l m n.
Definition set_statusText v '(View a b c _ e f g h i j k l m n) := View a b c v e f g h i j k l m n.
Definition set_indicatorHidden v '(View a b c d _ f g h i j k l m n) := View a b c d v f g h i j k l m n.
Definition set_indicatorText v '(View a b c d e _ g h i j k l m n) := View a b c d e v g h i j k l m n.
Definition set_micActive v '(View a b c d e f _ h i j k l m n) := View a b c d e f v h i j k l m n.
Definition set_autoLabel v '(View a b c d e f g _ i j k l m n) := View a b c d e f g v i j k l m n.
Definition set_cardHidden v '(View a b c d e f g h _ j k l m n) := View a b c d e f g h v j k l m n.
Definition set_normalizedHidden v '(View a b c d e f g h i _ k l m n) := View a b c d e f g h i v k l m n.
Definition set_normalizedText v '(View a b c d e f g h i j _ l m n) := View a b c d e f g h i j v l m n.
Definition set_slots v '(View a b c d e f g h i j k _ m n) := View a b c d e f g h i j k v m n.
Definition set_confirmHidden v '(View a b c d e f g h i j k l _ n) := View a b c d e f g h i j k l v n.
Definition set_confirmedRef v '(View a b c d e f g h i j k l m _) := View a b c d e f g h i j k l m v.

End Booking.

(** ** The world: the global scope of the page and the host *)

(** What the host holds for one loop: the [SpeechRecognition] objects the
    loop created, its pending [setTimeout] callbacks with their delays in
    milliseconds, and the [/message] requests it issued. *)
Record Host := MkHost {
  recognizers : list Recognizer;
  timers : list (Timer * nat);
  requests : list Request
}.

Definition upd_recognizers f '(MkHost a b c) := MkHost (f a) b c.
Definition upd_timers f '(MkHost a b c) := MkHost a (f b) c.
Definition upd_requests f '(MkHost a b c) := MkHost a b (f c).

Record World := MkWorld {
  currentView : string;                 (* state.currentView *)
  checkinState : Checkin.state;
  checkinRec : option nat;              (* let checkinRec *)
  checkinUtterance : option nat;        (* let checkinUtterance *)
  checkinView : Checkin.view;
  checkinHost : Host;
  bookingState : Booking.state;
  bookingRec : option nat;              (* let bookingRec *)
  bookingUtterance : option nat;        (* let bookingUtterance *)
  bookingView : Booking.view;
  bookingHost : Host;
  bannerHidden : bool;                  (* #api-key-banner has class hidden *)
  synth : list Utterance;               (* the queue of window.speechSynthesis *)
  uttCount : nat;                       (* utterances created so far *)
  alerts : list string                  (* the alert() dialogs shown so far *)
}.

Definition upd_currentView f '(MkWorld a b c d e g h i j k l m n o p) := MkWorld (f a) b c d e g h i j k l m n o p.
Definition upd_checkinState f '(MkWorld a b c d e g h i j k l m n o p) := MkWorld a (f b) c d e g h i j k l m n o p.
Definition upd_checkinRec f '(MkWorld a b c d e g h i j k l m n o p) := MkWorld a b (f c) d e g h i j k l m n o p.
Definition upd_checkinUtterance f '(MkWorld a b c d e g h i j k l m n o p) := MkWorld a b c (f d) e g h i j k l m n o p.
Definition upd_checkinView f '(MkWorld a b c d e g h i j k l m n o p) := MkWorld a b c d (f e) g h i j k l m n o p.
Definition upd_checkinHost f '(MkWorld a b c d e g h i j k l m n o p) := MkWorld a b c d e (f g) h i j k l m n o p.
Definition upd_bookingState f '(MkWorld a b c d e g h i j k l m n o p) := MkWorld a b c d e g (f h) i j k l m n o p.
Definition upd_bookingRec f '(MkWorld a b c d e g h i j k l m n o p) := MkWorld a b c d e g h (f i) j k l m n o p.
Definition upd_bookingUtterance f '(MkWorld a b c d e g h i j k l m n o p) := MkWorld a b c d e g h i (f j) k l m n o p.
Definition upd_bookingView f '(MkWorld a b c d e g h i j k l m n o p) := MkWorld a b c d e g h i j (f k) l m n o p.
Definition upd_bookingHost f '(MkWorld a b c d e g h i j k l m n o p) := MkWorld a b c d e g h i j k (f l) m n o p.
Definition upd_bannerHidden f '(MkWorld a b c d e g h i j k l m n o p) := MkWorld a b c d e g h i j k l (f m) n o p.
Definition upd_synth f '(MkWorld a b c d e g h i j k l m n o p) := MkWorld a b c d e g h i j k l m (f n) o p.
Definition upd_uttCount f '(MkWorld a b c d e g h i j k l m n o p) := MkWorld a b c d e g h i j k l m n (f o) p.
Definition upd_alerts f '(MkWorld a b c d e g h i j k l m n o p) := MkWorld a b c d e g h i j k l m n o (f p).

(** What the browser and the page offer: the speech engines, whether
    [start()] and [stop()] throw on a given recognizer, whether
    [getVoices()] has a voice when a given utterance is created, the
    properties every object inherits from [Object.prototype] (functions,
    and under [__proto__] the prototype itself), by name, each with the
    string it converts to, and the views of the page. *)
Record Platform := MkPlatform {
  hasSpeechSynthesis : bool;     (* 'speechSynthesis' in window *)
  hasSpeechRecognition : bool;   (* window.SpeechRecognition || window.webkitSpeechRecognition *)
  startThrows : Loop -> nat -> bool;
  stopThrows : Loop -> nat -> bool;
  hasVoices : nat -> bool;       (* speechSynthesis.getVoices().length > 0 *)
  inherited : string -> option string;  (* String(Object.prototype[key]) *)
  hasView : string -> bool       (* the page has an element #view-<view> *)
}.

(** ** The monad of JavaScript computations *)

Inductive Completion (A : Type) :=
  | Normal (a : A)
  | Throw (e : string).
Arguments Normal {A} a.
Arguments Throw {A} e.

Definition JS (A : Type) : Type := World -> Completion A * World.

Definition ret {A} (a : A) : JS A := fun w => (Normal a, w).

Definition bind {A B} (m : JS A) (k : A -> JS B) : JS B :=
  fun w => match m w with
           | (Normal a, w') => k a w'
           | (Throw e, w') => (Throw e, w')
           end.

Definition throw {A} (e : string) : JS A := fun w => (Throw e, w).

(** [try { m } catch (e) { h e }] *)
Definition try_catch {A} (m : JS A) (h : string -> JS A) : JS A :=
  fun w => match m w with
           | (Normal a, w') => (Normal a, w')
           | (Throw e, w') => h e w'
           end.

(** Reading a variable of the page: the current world. *)
Definition current : JS World := fun w => (Normal w, w).
Definition modify (f : World -> World) : JS unit := fun w => (Normal tt, f w).

(** [if (c) m] *)
Definition when (c : bool) (m : JS unit) : JS unit := if c then m else ret tt.

Declare Scope js_scope.
Delimit Scope js_scope with js.
Notation "x <- m ;; k" := (bind m (fun x => k))
  (at level 100, m at next level, right associativity) : js_scope.
Notation "m ;; k" := (bind m (fun _ => k))
  (at level 100, right associativity) : js_scope.
Local Open Scope js_scope.

(** The world a computation leaves, and whether it completed normally. *)
Definition exec {A} (m : JS A) (w : World) : World := snd (m w).
Definition returns {A} (m : JS A) (w : World) : bool :=
  match fst (m w) with Normal _ => true | Throw _ => false end.

(** The answers of the backend, as far as the loops read them.  A field
    the answer lacks is held as the empty string (as [false], as the empty
    list): that is what the loops make of [undefined] where they use these
    fields, in [textContent], as the text of an utterance, in [escapeHtml]
    and in their truth tests.  (The reference, date and time of a
    confirmed booking are taken to be present.) *)
Record CheckinReply := MkCheckinReply {
  reply : string;
  api_key_invalid : bool
}.

Record BookingReply := MkBookingReply {
  response_text : string;
  state : string;
  normalized_input : string;
  available_slots : list nat;       (* the ids of the slots offered *)
  requires_confirmation : bool;
  booking_ref : string;
  slot_date : string;
  slot_time : string
}.

(** How the two awaits of a send function, [fetch(...)] and [res.json()],
    settle: with the body of the answer, whatever its HTTP status, or with
    a rejection (the network failed, or the body is not JSON). *)
Inductive Settled (A : Type) :=
  | Fulfilled (data : A)
  | Rejected.
Arguments Fulfilled {A} data.
Arguments Rejected {A}.

(** [await p] inside a [try] block: the value, or the rejection thrown. *)
Definition await {A} (p : Settled A) : JS A :=
  match p with
  | Fulfilled data => ret data
  | Rejected => throw "TypeError: Failed to fetch"
  end.

(** ** The host: speech engines, timers, network, dialogs *)

Section Program.

Variable P : Platform.

(** [speechSynthesis.cancel()]: removes every utterance from the queue of
    the window, whoever queued it. *)
Definition synth_cancel : JS unit := modify (upd_synth (fun _ => [])).

(** [speechSynthesis.speak(u)] *)
Definition synth_speak (u : Utterance) : JS unit :=
  modify (upd_synth (fun q => (q ++ [u])%list)).

(** [new SpeechSynthesisUtterance(text)]: the identity of the new object. *)
Definition new_utterance : JS nat :=
  fun w => (Normal (uttCount w), upd_uttCount S w).

Definition host (o : Loop) (w : World) : Host :=
  match o with
  | CheckinLoop => checkinHost w
  | BookingLoop => bookingHost w
  end.

Definition upd_host (o : Loop) (f : Host -> Host) : World -> World :=
  match o with
  | CheckinLoop => upd_checkinHost f
  | BookingLoop => upd_bookingHost f
  end.

(** [SPEECH_LANG_MAP[code]].  The lookup on a plain object goes through
    its prototype: for a code that is no key of the map and names a
    property of [Object.prototype] ([constructor], [toString], ...) it
    finds that property, a function or an object. *)
Definition lookupSpeechLang (code : string) : Property :=
  match assoc code SPEECH_LANG_MAP with
  | Some tag => Own tag
  | None =>
      match inherited P code with
      | Some text => FromPrototype text
      | None => Undefined
      end
  end.

(** [SPEECH_LANG_MAP[code] || 'en-SG'], as the [lang] attribute it is
    assigned to holds it: a tag of the map as it is, and an inherited
    property, which is truthy, by its string form. *)
Definition speechLang (code : string) : string :=
  match lookupSpeechLang code with
  | Own tag => tag
  | FromPrototype text => text
  | Undefined => "en-SG"
  end.

(** The search for a voice of the locale among [getVoices()], which calls
    [bcp47.split('-')] on every voice it tries.  An inherited property is
    no string and has no [split]: the search throws on the first voice.
    The voice picked is left out. *)
Definition findVoice (code : string) (utterance : nat) : JS unit :=
  match lookupSpeechLang code with
  | FromPrototype _ =>
      if hasVoices P utterance
      then throw "TypeError: bcp47.split is not a function"
      else ret tt
  | _ => ret tt
  end.

(** [new SpeechRecognition()] with [continuous = false],
    [interimResults = true] and the given [lang], followed by
    [let finalTranscript = ''] *)
Definition new_recognizer (o : Loop) (lang : string) : JS nat :=
  fun w => (Normal (length (recognizers (host o w))),
            upd_host o (upd_recognizers
                          (fun l => (l ++ [MkRecognizer lang false true "" false false])%list)) w).

Definition mark_started (r : Recognizer) : Recognizer :=
  MkRecognizer (rec_lang r) (continuous r) (interimResults r) (finalTranscript r)
    true (rec_stopped r).
Definition mark_stopped (r : Recognizer) : Recognizer :=
  MkRecognizer (rec_lang r) (continuous r) (interimResults r) (finalTranscript r)
    (rec_started r) true.
Definition with_final (s : string) (r : Recognizer) : Recognizer :=
  MkRecognizer (rec_lang r) (continuous r) (interimResults r) s
    (rec_started r) (rec_stopped r).

(** [rec.start()] *)
Definition rec_start (o : Loop) (r : nat) : JS unit :=
  if startThrows P o r then throw "InvalidStateError"
  else modify (upd_host o (upd_recognizers (alter mark_started r))).

(** [rec.stop()] *)
Definition rec_stop (o : Loop) (r : nat) : JS unit :=
  if stopThrows P o r then throw "InvalidStateError"
  else modify (upd_host o (upd_recognizers (alter mark_stopped r))).

(** The [finalTranscript] closed over by the handlers of recognizer [r]. *)
Definition final_of (o : Loop) (r : nat) (w : World) : string :=
  match recognizers (host o w) !! r with
  | Some x => finalTranscript x
  | None => ""
  end.
Definition get_final (o : Loop) (r : nat) : JS string :=
  fun w => (Normal (final_of o r w), w).
Definition set_final (o : Loop) (r : nat) (s : string) : JS unit :=
  modify (upd_host o (upd_recognizers (alter (with_final s) r))).

(** [setTimeout(callback, ms)] *)
Definition setTimeout (o : Loop) (t : Timer) (ms : nat) : JS unit :=
  modify (upd_host o (upd_timers (fun l => (l ++ [(t, ms)])%list))).

Definition alert (msg : string) : JS unit :=
  modify (upd_alerts (fun l => (l ++ [msg])%list)).

(** [fetch(`${API}/api/.../${id}/message`, { method: 'POST', body })] *)
Definition fetch_message (o : Loop) (sid : option nat) (text : string) : JS unit :=
  modify (upd_host o (upd_requests (fun l => (l ++ [MkRequest sid text false])%list))).

(** One pass of the loop of [onresult] over [event.results], from
    [event.resultIndex] on: the final and the interim text gathered. *)
Fixpoint gather (rs : list SpeechResult) (final interim : string) : string * string :=
  match rs with
  | [] => (final, interim)
  | x :: rs' =>
      if isFinal x then gather rs' (final ++ transcript x) interim
      else gather rs' final (interim ++ transcript x)
  end.

(** ** Check-in: helpers of the view *)

Definition ck_state (f : Checkin.state -> Checkin.state) : JS unit :=
  modify (upd_checkinState f).
Definition ck_view (f : Checkin.view -> Checkin.view) : JS unit :=
  modify (upd_checkinView f).

(** [showCheckinStep(stepId)], [stepId] being a step of the check-in view
    as it is at every call.  The selector [.checkin-step] is not scoped to
    the view: the steps of [#view-booking] carry that class too (it is how
    [showBookingStep] selects them), so they all lose their marking. *)
Definition showCheckinStep (stepId : string) : JS unit :=
  ck_view (Checkin.set_step "") ;;
  modify (upd_bookingView (Booking.set_step "")) ;;
  ck_view (Checkin.set_step stepId).

Definition setCheckinVoiceIndicator (indicatorState : string) : JS unit :=
  if String.eqb indicatorState "idle" then
    ck_view (Checkin.set_indicatorHidden true)
  else
    ck_view (Checkin.set_indicatorHidden false) ;;
    ck_view (Checkin.set_indicatorText
               (if String.eqb indicatorState "speaking"
                then "Aria is speaking…" else "Aria is listening…")).

Definition appendCheckinBubble (role : Role) (text : string) : JS unit :=
  ck_view (fun v => Checkin.set_messages (Checkin.messages v ++ [(role, text)])%list v).

(** [showCheckinTyping()] appends one more typing indicator. *)
Definition showCheckinTyping : JS unit :=
  ck_view (fun v => Checkin.set_typing (S (Checkin.typing v)) v).

(** [hideCheckinTyping()] removes the first element with the id of the
    typing indicators, if there is one. *)
Definition hideCheckinTyping : JS unit :=
  ck_view (fun v => Checkin.set_typing (Nat.pred (Checkin.typing v)) v).

Definition updateAutoModeUI : JS unit :=
  w <- current ;;
  if Checkin.isAutoMode (checkinState w) then
    ck_view (Checkin.set_autoOff false) ;;
    ck_view (Checkin.set_autoLabel "Auto On")
  else
    ck_view (Checkin.set_autoOff true) ;;
    ck_view (Checkin.set_autoLabel "Auto Off").

(** ** Check-in: the voice loop *)

Definition stopCheckinSpeaking : JS unit :=
  when (hasSpeechSynthesis P) synth_cancel ;;
  ck_state (Checkin.set_isSpeaking false) ;;
  modify (upd_checkinUtterance (fun _ => None)).

Definition stopCheckinVoice : JS unit :=
  ck_state (Checkin.set_isListening false) ;;
  w <- current ;;
  match checkinRec w with
  | Some r =>
      try_catch (rec_stop CheckinLoop r) (fun _ => ret tt) ;;
      modify (upd_checkinRec (fun _ => None))
  | None => ret tt
  end ;;
  ck_view (Checkin.set_micRecording false) ;;
  ck_view (Checkin.set_voiceStatusActive false) ;;
  setCheckinVoiceIndicator "idle".

Definition checkinSpeakThenListen (text : string) : JS unit :=
  if negb (hasSpeechSynthesis P) then ret tt else
  stopCheckinSpeaking ;;
  stopCheckinVoice ;;
  setCheckinVoiceIndicator "speaking" ;;
  utterance <- new_utterance ;;
  w <- current ;;
  let bcp47 := speechLang (Checkin.langCode (checkinState w)) in
  findVoice (Checkin.langCode (checkinState w)) utterance ;;
  modify (upd_checkinUtterance (fun _ => Some utterance)) ;;
  ck_state (Checkin.set_isSpeaking true) ;;
  synth_speak (MkUtterance utterance CheckinLoop text bcp47).

(** [utterance.onend] of an utterance of the check-in loop *)
Definition checkinUtterance_onend : JS unit :=
  ck_state (Checkin.set_isSpeaking false) ;;
  modify (upd_checkinUtterance (fun _ => None)) ;;
  w <- current ;;
  if Checkin.isAutoMode (checkinState w) then
    setCheckinVoiceIndicator "idle" ;;
    setTimeout CheckinLoop StartListening 400
  else
    setCheckinVoiceIndicator "idle".

(** [utterance.onerror] *)
Definition checkinUtterance_onerror : JS unit :=
  ck_state (Checkin.set_isSpeaking false) ;;
  modify (upd_checkinUtterance (fun _ => None)) ;;
  setCheckinVoiceIndicator "idle".

Definition startCheckinListening : JS unit :=
  w <- current ;;
  if negb (hasSpeechRecognition P) || Checkin.isListening (checkinState w)
  then ret tt else
  stopCheckinVoice ;;
  w <- current ;;
  rec <- new_recognizer CheckinLoop (speechLang (Checkin.langCode (checkinState w))) ;;
  ck_state (Checkin.set_isListening true) ;;
  modify (upd_checkinRec (fun _ => Some rec)) ;;
  setCheckinVoiceIndicator "listening" ;;
  ck_view (Checkin.set_micRecording true) ;;
  ck_view (Checkin.set_voiceStatusActive true) ;;
  try_catch (rec_start CheckinLoop rec) (fun _ => ret tt).

(** [rec.onresult] of the recognizer [rec] of the check-in loop.  The
    handler empties [finalTranscript] and [interim] and gathers both anew
    from the results the event reports. *)
Definition checkinRec_onresult (rec : nat) (event : ResultEvent) : JS unit :=
  let '(final, interim) :=
    gather (drop (resultIndex event) (results event)) "" "" in
  set_final CheckinLoop rec final ;;
  ck_view (Checkin.set_inputValue (final ++ interim)) ;;
  ck_view (Checkin.set_statusText
             (if Str.truthy interim then "Hearing you…" else "Listening…")).

(** [rec.onend] *)
Definition checkinRec_onend (rec : nat) : JS unit :=
  ck_state (Checkin.set_isListening false) ;;
  modify (upd_checkinRec (fun _ => None)) ;;
  ck_view (Checkin.set_micRecording false) ;;
  ck_view (Checkin.set_voiceStatusActive false) ;;
  setCheckinVoiceIndicator "idle" ;;
  final <- get_final CheckinLoop rec ;;
  w <- current ;;
  when (Str.truthy (Str.trim final) && Checkin.isAutoMode (checkinState w))
       (setTimeout CheckinLoop (SendTranscript rec) 300).

(** [rec.onerror] *)
Definition checkinRec_onerror (error : string) : JS unit :=
  when (String.eqb error "not-allowed")
       (alert "Microphone access was denied. Please allow microphone access to use voice input.") ;;
  ck_state (Checkin.set_isListening false) ;;
  modify (upd_checkinRec (fun _ => None)) ;;
  ck_view (Checkin.set_micRecording false) ;;
  ck_view (Checkin.set_voiceStatusActive false) ;;
  setCheckinVoiceIndicator "idle".

Definition toggleCheckinVoice : JS unit :=
  w <- current ;;
  if Checkin.isListening (checkinState w) then stopCheckinVoice
  else stopCheckinSpeaking ;; startCheckinListening.

Definition toggleAutoMode : JS unit :=
  ck_state (fun s => Checkin.set_isAutoMode (negb (Checkin.isAutoMode s)) s) ;;
  w <- current ;;
  when (negb (Checkin.isAutoMode (checkinState w)))
       (stopCheckinSpeaking ;; stopCheckinVoice) ;;
  updateAutoModeUI.

(** [override !== undefined ? override : input.value]; [None] stands for
    [undefined]. *)
Definition or_typed (override : option string) (typed : string) : string :=
  match override with
  | Some t => t
  | None => typed
  end.

(** ** Check-in: messages *)

(** [sendCheckinMessage(textOverride)] up to its [await fetch(...)] *)
Definition sendCheckinMessage (textOverride : option string) : JS unit :=
  w <- current ;;
  let text := Str.trim (or_typed textOverride (Checkin.inputValue (checkinView w))) in
  if negb (Str.truthy text) || negb (truthyId (Checkin.sessionId (checkinState w)))
  then ret tt else
  ck_view (Checkin.set_inputValue "") ;;
  appendCheckinBubble user text ;;
  showCheckinTyping ;;
  ck_view (Checkin.set_sendDisabled true) ;;
  ck_view (Checkin.set_sendToDoctorDisabled true) ;;
  fetch_message CheckinLoop (Checkin.sessionId (checkinState w)) text.

(** The rest of [sendCheckinMessage], run when the request settles. *)
Definition sendCheckinMessage_settle (res : Settled CheckinReply) : JS unit :=
  try_catch
    (data <- await res ;;
     hideCheckinTyping ;;
     when (api_key_invalid data) (modify (upd_bannerHidden (fun _ => false))) ;;
     appendCheckinBubble assistant (reply data) ;;
     w <- current ;;
     when (Checkin.isAutoMode (checkinState w))
          (checkinSpeakThenListen (reply data)))
    (fun _ =>
       hideCheckinTyping ;;
       appendCheckinBubble assistant "[Connection error — please try again.]") ;;
  ck_view (Checkin.set_sendDisabled false) ;;
  ck_view (Checkin.set_sendToDoctorDisabled false).

(** [handleCheckinKey(e)] for Enter without Shift *)
Definition handleCheckinKey : JS unit :=
  stopCheckinVoice ;;
  sendCheckinMessage None.

(** [handleCheckinSetup(e)] up to its first [await]: [code] is
    [state.languages[language]?.code || 'en']. *)
Definition handleCheckinSetup (language code : string) : JS unit :=
  ck_state (Checkin.set_langCode code) ;;
  ck_state (Checkin.set_langName language) ;;
  ck_state (Checkin.set_isAutoMode true).

(** The rest of [handleCheckinSetup] once the patient and the session are
    created, inside its [try] block. *)
Definition handleCheckinSetup_ready (patient session : option nat)
    (greeting : string) (key_invalid : bool) : JS unit :=
  try_catch
    (ck_state (Checkin.set_patientId patient) ;;
     ck_state (Checkin.set_sessionId session) ;;
     when key_invalid (modify (upd_bannerHidden (fun _ => false))) ;;
     ck_view (Checkin.set_messages []) ;;
     ck_view (Checkin.set_typing 0) ;;
     ck_view (Checkin.set_inputValue "") ;;
     updateAutoModeUI ;;
     showCheckinStep "checkin-chat" ;;
     appendCheckinBubble assistant greeting ;;
     w <- current ;;
     when (Checkin.isAutoMode (checkinState w)) (checkinSpeakThenListen greeting))
    (fun _ =>
       alert "Failed to start check-in. Please check your API key and connection.").

Definition backToCheckinSetup : JS unit :=
  stopCheckinSpeaking ;;
  stopCheckinVoice ;;
  ck_state (Checkin.set_patientId None) ;;
  ck_state (Checkin.set_sessionId None) ;;
  showCheckinStep "checkin-setup".

(** ** Booking: helpers of the view *)

Definition bk_state (f : Booking.state -> Booking.state) : JS unit :=
  modify (upd_bookingState f).
Definition bk_view (f : Booking.view -> Booking.view) : JS unit :=
  modify (upd_bookingView f).

(** [showBookingStep(stepId)], [stepId] being a step of the booking view;
    its selector is scoped to [#view-booking]. *)
Definition showBookingStep (stepId : string) : JS unit :=
  bk_view (Booking.set_step stepId).

Definition appendBookingBubble (role : Role) (text : string) : JS unit :=
  bk_view (fun v => Booking.set_messages (Booking.messages v ++ [(role, text)])%list v).

Definition setBookingStatus (text : string) : JS unit :=
  bk_view (Booking.set_statusText text).

Definition renderBookingStateCard (data : BookingReply) : JS unit :=
  (if Str.truthy (normalized_input data) then
     bk_view (Booking.set_normalizedText (normalized_input data)) ;;
     bk_view (Booking.set_normalizedHidden false)
   else
     bk_view (Booking.set_normalizedHidden true)) ;;
  bk_view (Booking.set_slots []) ;;
  bk_state (Booking.set_selectedSlotId None) ;;
  match available_slots data with
  | [] => ret tt
  | first :: _ =>
      bk_view (Booking.set_slots (available_slots data)) ;;
      bk_state (Booking.set_selectedSlotId (Some first)) ;;
      bk_view (Booking.set_cardHidden false)
  end ;;
  (if requires_confirmation data then
     bk_view (Booking.set_confirmHidden false) ;;
     bk_view (Booking.set_cardHidden false)
   else
     bk_view (Booking.set_confirmHidden true)) ;;
  when (negb (Str.truthy (normalized_input data))
        && match available_slots data with [] => true | _ => false end)
       (bk_view (Booking.set_cardHidden true)).

(** ** Booking: the voice loop *)

Definition stopBookingSpeaking : JS unit :=
  when (hasSpeechSynthesis P) synth_cancel ;;
  bk_state (Booking.set_isSpeaking false) ;;
  bk_view (Booking.set_indicatorHidden true).

Definition stopBookingVoice : JS unit :=
  w <- current ;;
  match bookingRec w with
  | Some r =>
      try_catch (rec_stop BookingLoop r) (fun _ => ret tt) ;;
      modify (upd_bookingRec (fun _ => None))
  | None => ret tt
  end ;;
  bk_state (Booking.set_isListening false) ;;
  bk_view (Booking.set_indicatorHidden true) ;;
  bk_view (Booking.set_micActive false).

Definition bookingSpeakThenListen (text : string) : JS unit :=
  stopBookingSpeaking ;;
  if negb (hasSpeechSynthesis P) then
    setBookingStatus "Ready" ;;
    w <- current ;;
    when (Booking.isAutoMode (bookingState w)) (setTimeout BookingLoop StartListening 400)
  else
    utterance <- new_utterance ;;
    modify (upd_bookingUtterance (fun _ => Some utterance)) ;;
    w <- current ;;
    let bcp47 := speechLang (Booking.langCode (bookingState w)) in
    findVoice (Booking.langCode (bookingState w)) utterance ;;
    synth_speak (MkUtterance utterance BookingLoop text bcp47).

(** [bookingUtterance.onstart] *)
Definition bookingUtterance_onstart : JS unit :=
  bk_state (Booking.set_isSpeaking true) ;;
  bk_view (Booking.set_indicatorHidden false) ;;
  bk_view (Booking.set_indicatorText "Aria is speaking…") ;;
  setBookingStatus "Speaking…".

(** [bookingUtterance.onend] *)
Definition bookingUtterance_onend : JS unit :=
  bk_state (Booking.set_isSpeaking false) ;;
  bk_view (Booking.set_indicatorHidden true) ;;
  w <- current ;;
  when (Booking.isAutoMode (bookingState w)) (setTimeout BookingLoop StartListening 400).

(** [bookingUtterance.onerror] *)
Definition bookingUtterance_onerror : JS unit :=
  bk_state (Booking.set_isSpeaking false) ;;
  bk_view (Booking.set_indicatorHidden true).

Definition startBookingListening : JS unit :=
  if negb (hasSpeechRecognition P) then
    setBookingStatus "Voice not supported in this browser."
  else
  w <- current ;;
  if Booking.isListening (bookingState w) then ret tt else
  stopBookingVoice ;;
  w <- current ;;
  rec <- new_recognizer BookingLoop (speechLang (Booking.langCode (bookingState w))) ;;
  modify (upd_bookingRec (fun _ => Some rec)) ;;
  rec_start BookingLoop rec.

(** [bookingRec.onstart] *)
Definition bookingRec_onstart : JS unit :=
  bk_state (Booking.set_isListening true) ;;
  bk_view (Booking.set_indicatorHidden false) ;;
  bk_view (Booking.set_indicatorText "Listening…") ;;
  setBookingStatus "Listening…" ;;
  bk_view (Booking.set_micActive true).

(** [bookingRec.onresult] of the recognizer [rec] of the booking loop;
    the same loop as in the check-in handler. *)
Definition bookingRec_onresult (rec : nat) (e : ResultEvent) : JS unit :=
  let '(final, interim) :=
    gather (drop (resultIndex e) (results e)) "" "" in
  set_final BookingLoop rec final ;;
  bk_view (Booking.set_inputValue (Str.or final interim)).

(** [bookingRec.onend] *)
Definition bookingRec_onend (rec : nat) : JS unit :=
  bk_state (Booking.set_isListening false) ;;
  bk_view (Booking.set_indicatorHidden true) ;;
  setBookingStatus "Ready" ;;
  bk_view (Booking.set_micActive false) ;;
  final <- get_final BookingLoop rec ;;
  w <- current ;;
  when (Booking.isAutoMode (bookingState w) && Str.truthy (Str.trim final))
       (setTimeout BookingLoop (SendTranscript rec) 300).

(** [bookingRec.onerror] *)
Definition bookingRec_onerror (error : string) : JS unit :=
  bk_state (Booking.set_isListening false) ;;
  bk_view (Booking.set_indicatorHidden true) ;;
  bk_view (Booking.set_micActive false) ;;
  when (String.eqb error "not-allowed")
       (alert "Microphone access denied. Please allow microphone access.").

Definition toggleBookingVoice : JS unit :=
  w <- current ;;
  if Booking.isListening (bookingState w) then stopBookingVoice
  else startBookingListening.

Definition toggleBookingAutoMode : JS unit :=
  bk_state (fun s => Booking.set_isAutoMode (negb (Booking.isAutoMode s)) s) ;;
  w <- current ;;
  bk_view (Booking.set_autoLabel
             (if Booking.isAutoMode (bookingState w) then "Auto On" else "Auto Off")).

(** ** Booking: messages *)

Definition showBookingConfirmed (data : BookingReply) : JS unit :=
  stopBookingSpeaking ;;
  stopBookingVoice ;;
  let ref := booking_ref data in
  bk_view (Booking.set_confirmedRef ref) ;;
  showBookingStep "booking-confirmed" ;;
  bookingSpeakThenListen
    ("Your appointment has been confirmed. Your booking reference is " ++ ref
     ++ ". See you at " ++ slot_time data ++ " on " ++ slot_date data ++ ".").

(** [sendBookingMessage(overrideText)] up to its [await fetch(...)] *)
Definition sendBookingMessage (overrideText : option string) : JS unit :=
  w <- current ;;
  let text := Str.trim (or_typed overrideText (Booking.inputValue (bookingView w))) in
  if negb (Str.truthy text)
     || negb (truthyId (Booking.bookingSessionId (bookingState w)))
  then ret tt else
  bk_view (Booking.set_inputValue "") ;;
  stopBookingVoice ;;
  appendBookingBubble user text ;;
  setBookingStatus "Processing…" ;;
  fetch_message BookingLoop (Booking.bookingSessionId (bookingState w)) text.

(** The rest of [sendBookingMessage], run when the request settles. *)
Definition sendBookingMessage_settle (res : Settled BookingReply) : JS unit :=
  try_catch
    (data <- await res ;;
     appendBookingBubble assistant (response_text data) ;;
     renderBookingStateCard data ;;
     if String.eqb (state data) "confirmed" then showBookingConfirmed data
     else if String.eqb (state data) "cancelled" then
       appendBookingBubble assistant
         "Your booking has been cancelled. Feel free to start a new one."
     else bookingSpeakThenListen (response_text data))
    (fun _ =>
       appendBookingBubble assistant
         "[Error communicating with server. Please try again.]").

(** [handleBookingKey(event)] for Enter without Shift *)
Definition handleBookingKey : JS unit := sendBookingMessage None.

(** The rest of [handleBookingSetup] once [/api/booking/start] has
    answered with success, inside its [try] block; [code] is
    [(state.languages[language] || {}).code || 'en']. *)
Definition handleBookingSetup_ready (patient session : option nat)
    (language code welcome_message : string) : JS unit :=
  try_catch
    (bk_state (Booking.set_patientId patient) ;;
     bk_state (Booking.set_bookingSessionId session) ;;
     bk_state (Booking.set_langName language) ;;
     bk_state (Booking.set_langCode code) ;;
     bk_view (Booking.set_messages []) ;;
     bk_view (Booking.set_cardHidden true) ;;
     showBookingStep "booking-chat" ;;
     appendBookingBubble assistant welcome_message ;;
     bookingSpeakThenListen welcome_message)
    (fun _ => alert "Failed to start booking. Please check your connection.").

Definition backToBookingSetup : JS unit :=
  stopBookingSpeaking ;;
  stopBookingVoice ;;
  showBookingStep "booking-setup".

(** The rest of [cancelBookingSession] after its [await fetch(.../cancel)] *)
Definition cancelBookingSession_done : JS unit :=
  bk_view (Booking.set_cardHidden true) ;;
  appendBookingBubble assistant
    "Booking cancelled. Let me know if you'd like to try again." ;;
  bookingSpeakThenListen
    "Booking cancelled. Let me know if you'd like to try again with different preferences.".

(** ** Navigation *)

(** [navigateTo(view)].  For a view the page lacks
    [document.getElementById(`view-${view}`)] is [null] and reading its
    [classList] throws, before anything else is done.  The marking of the
    active view and of its navigation button is left out, and so is
    [loadSessions()], which as an [async] function cannot throw here. *)
Definition navigateTo (view : string) : JS unit :=
  if negb (hasView P view) then
    throw "TypeError: Cannot read properties of null (reading 'classList')"
  else
  modify (upd_currentView (fun _ => view)) ;;
  when (String.eqb view "checkin") (showCheckinStep "checkin-setup") ;;
  when (String.eqb view "booking") (showBookingStep "booking-setup") ;;
  stopCheckinSpeaking ;;
  stopCheckinVoice ;;
  stopBookingSpeaking ;;
  stopBookingVoice.

(** ** Events: what the user, the speech engines, the timers and the
    network make the page run *)

Inductive Event :=
  (* the user *)
  | UserTypes (o : Loop) (text : string)
  | UserTogglesVoice (o : Loop)
  | UserTogglesAutoMode (o : Loop)
  | UserPressesEnter (o : Loop)
  | UserClicksSend (o : Loop)
  | UserGoesBackToSetup (o : Loop)
  | UserNavigates (view : string)
  | BookingCancelled
  (* the backend *)
  | CheckinSessionCreated (patient session : option nat) (greeting : string) (key_invalid : bool)
  | BookingSessionCreated (patient session : option nat) (language code welcome : string)
  | CheckinRequestSettles (n : nat) (res : Settled CheckinReply)
  | BookingRequestSettles (n : nat) (res : Settled BookingReply)
  (* the synthesis engine, about utterance [u] of loop [o] *)
  | UtteranceStarts (o : Loop) (u : nat)
  | UtteranceEnds (o : Loop) (u : nat)
  | UtteranceFails (o : Loop) (u : nat)
  (* the recognition engine, about recognizer [r] of loop [o] *)
  | RecognitionStarts (o : Loop) (r : nat)
  | RecognitionResult (o : Loop) (r : nat) (e : ResultEvent)
  | RecognitionEnds (o : Loop) (r : nat)
  | RecognitionFails (o : Loop) (r : nat) (error : string)
  (* the timers: the [n]-th pending callback of loop [o] runs *)
  | TimerFires (o : Loop) (n : nat).

Definition mark_settled (q : Request) : Request :=
  MkRequest (req_session q) (req_message q) true.

(** The promise of the [n]-th request of loop [o] has settled. *)
Definition settle_request (o : Loop) (n : nat) : JS unit :=
  modify (upd_host o (upd_requests (alter mark_settled n))).

(** An utterance that ended or failed has left the queue of the engine. *)
Definition leave_queue (u : nat) : JS unit :=
  modify (upd_synth (filter (fun x => utt_id x <> u))).

Definition run_timer (o : Loop) (t : Timer) : JS unit :=
  match o, t with
  | CheckinLoop, StartListening => startCheckinListening
  | CheckinLoop, SendTranscript r =>
      final <- get_final CheckinLoop r ;; sendCheckinMessage (Some (Str.trim final))
  | BookingLoop, StartListening => startBookingListening
  | BookingLoop, SendTranscript r =>
      final <- get_final BookingLoop r ;; sendBookingMessage (Some (Str.trim final))
  end.

Definition handle (ev : Event) : JS unit :=
  match ev with
  | UserTypes CheckinLoop text => ck_view (Checkin.set_inputValue text)
  | UserTypes BookingLoop text => bk_view (Booking.set_inputValue text)
  | UserTogglesVoice CheckinLoop => toggleCheckinVoice
  | UserTogglesVoice BookingLoop => toggleBookingVoice
  | UserTogglesAutoMode CheckinLoop => toggleAutoMode
  | UserTogglesAutoMode BookingLoop => toggleBookingAutoMode
  | UserPressesEnter CheckinLoop => handleCheckinKey
  | UserPressesEnter BookingLoop => handleBookingKey
  | UserClicksSend CheckinLoop => sendCheckinMessage None
  | UserClicksSend BookingLoop => sendBookingMessage None
  | UserGoesBackToSetup CheckinLoop => backToCheckinSetup
  | UserGoesBackToSetup BookingLoop => backToBookingSetup
  | UserNavigates view => navigateTo view
  | BookingCancelled => cancelBookingSession_done
  | CheckinSessionCreated p s g k => handleCheckinSetup_ready p s g k
  | BookingSessionCreated p s l c m => handleBookingSetup_ready p s l c m
  | CheckinRequestSettles n res =>
      settle_request CheckinLoop n ;; sendCheckinMessage_settle res
  | BookingRequestSettles n res =>
      settle_request BookingLoop n ;; sendBookingMessage_settle res
  | UtteranceStarts CheckinLoop _ => ret tt
  | UtteranceStarts BookingLoop _ => bookingUtterance_onstart
  | UtteranceEnds CheckinLoop u => leave_queue u ;; checkinUtterance_onend
  | UtteranceEnds BookingLoop u => leave_queue u ;; bookingUtterance_onend
  | UtteranceFails CheckinLoop u => leave_queue u ;; checkinUtterance_onerror
  | UtteranceFails BookingLoop u => leave_queue u ;; bookingUtterance_onerror
  | RecognitionStarts CheckinLoop _ => ret tt
  | RecognitionStarts BookingLoop _ => bookingRec_onstart
  | RecognitionResult CheckinLoop r e => checkinRec_onresult r e
  | RecognitionResult BookingLoop r e => bookingRec_onresult r e
  | RecognitionEnds CheckinLoop r => checkinRec_onend r
  | RecognitionEnds BookingLoop r => bookingRec_onend r
  | RecognitionFails CheckinLoop _ error => checkinRec_onerror error
  | RecognitionFails BookingLoop _ error => bookingRec_onerror error
  | TimerFires o n =>
      w <- current ;;
      match timers (host o w) !! n with
      | Some (t, _) => modify (upd_host o (upd_timers (delete n))) ;; run_timer o t
      | None => ret tt
      end
  end.

(** One turn of the event loop: the handler runs to completion; an
    exception nobody caught ends the turn where it was thrown. *)
Definition step (w : World) (ev : Event) : World := exec (handle ev) w.

Definition run (evs : list Event) (w : World) : World := fold_left step evs w.

End Program.

(** The page as loaded: the initial values of [app.js] and every
    indicator of the two views at rest. *)
Definition page_loaded : World :=
  {| currentView := "home";
     checkinState := Checkin.State None None "en" "English" true false false;
     checkinRec := None;
     checkinUtterance := None;
     checkinView := Checkin.View "checkin-setup" [] 0 "" false false false false
                      "" true "" false "";
     checkinHost := MkHost [] [] [];
     bookingState := Booking.State None None "en" "English" true false false None;
     bookingRec := None;
     bookingUtterance := None;
     bookingView := Booking.View "booking-setup" [] "" "" true "" false ""
                      true true "" [] true "";
     bookingHost := MkHost [] [] [];
     bannerHidden := true;
     synth := [];
     uttCount := 0;
     alerts := [] |}.

(** The properties of [Object.prototype] and the strings they convert to
    in a browser that prints a built-in function as
    [function name() { [native code] }]. *)
Definition objectPrototype (key : string) : option string :=
  if String.eqb key "__proto__" then Some "[object Object]"
  else if String.eqb key "constructor" then Some "function Object() { [native code] }"
  else if existsb (String.eqb key)
            [ "hasOwnProperty"; "isPrototypeOf"; "propertyIsEnumerable";
              "toLocaleString"; "toString"; "valueOf";
              "__defineGetter__"; "__defineSetter__";
              "__lookupGetter__"; "__lookupSetter__" ]
  then Some ("function " ++ key ++ "() { [native code] }")
  else None.

(** The views of the page: the one shown first and the three
    [navigateTo] knows by name. *)
Definition pageViews (view : string) : bool :=
  existsb (String.eqb view) ["home"; "checkin"; "booking"; "doctor"].

(** A browser with both speech engines, whose [start()] and [stop()] do
    not throw. *)
Definition full_browser : Platform :=
  MkPlatform true true (fun _ _ => false) (fun _ _ => false) (fun _ => true)
    objectPrototype pageViews.

(** A browser that speaks but has no [SpeechRecognition] (neither the
    standard nor the webkit constructor). *)
Definition no_recognition : Platform :=
  MkPlatform true false (fun _ _ => false) (fun _ _ => false) (fun _ => true)
    objectPrototype pageViews.

(** A browser without [speechSynthesis]. *)
Definition no_synthesis : Platform :=
  MkPlatform false true (fun _ _ => false) (fun _ _ => false) (fun _ => false)
    objectPrototype pageViews.

(** A browser whose [rec.stop()] and [rec.start()] always throw. *)
Definition throwing_engine : Platform :=
  MkPlatform true true (fun _ _ => true) (fun _ _ => true) (fun _ => true)
    objectPrototype pageViews.

(** ** Observations on a world *)

(** The phase of a loop, read off its flags and its requests in flight. *)
Inductive Phase := Idle | Speaking | Listening | Submitting.

Definition in_flight (h : Host) : bool :=
  existsb (fun q => negb (req_settled q)) (requests h).

Definition checkinPhase (w : World) : Phase :=
  if Checkin.isSpeaking (checkinState w) then Speaking
  else if Checkin.isListening (checkinState w) then Listening
  else if in_flight (checkinHost w) then Submitting
  else Idle.

Definition bookingPhase (w : World) : Phase :=
  if Booking.isSpeaking (bookingState w) then Speaking
  else if Booking.isListening (bookingState w) then Listening
  else if in_flight (bookingHost w) then Submitting
  else Idle.

(** Everything that belongs to one loop: its state object, its handles,
    its elements and what the host holds for it. *)
Definition checkinSide (w : World) :=
  (checkinState w, checkinRec w, checkinUtterance w, checkinView w, checkinHost w).

(** The same for the booking loop, the marking of the active step of its
    view aside: that marking is also written by [showCheckinStep]. *)
Definition bookingSide (w : World) :=
  (bookingState w, bookingRec w, bookingUtterance w,
   Booking.set_step "" (bookingView w), bookingHost w).

(** The utterances of loop [o] that the synthesis engine holds. *)
Definition utterances_of (o : Loop) (w : World) : list Utterance :=
  List.filter (fun u => Loop_eqb (utt_owner u) o) (synth w).

(** The loop an event belongs to; navigation concerns both. *)
Definition loop_of (ev : Event) : option Loop :=
  match ev with
  | UserTypes o _ | UserTogglesVoice o | UserTogglesAutoMode o
  | UserPressesEnter o | UserClicksSend o | UserGoesBackToSetup o
  | UtteranceStarts o _ | UtteranceEnds o _ | UtteranceFails o _
  | RecognitionStarts o _ | RecognitionResult o _ _ | RecognitionEnds o _
  | RecognitionFails o _ _ | TimerFires o _ => Some o
  | CheckinSessionCreated _ _ _ _ | CheckinRequestSettles _ _ => Some CheckinLoop
  | BookingSessionCreated _ _ _ _ _ | BookingRequestSettles _ _ | BookingCancelled =>
      Some BookingLoop
  | UserNavigates _ => None
  end.

(** The check-in loop at rest, as the page shows it: no job, the
    indicators cleared, nothing in the queue of the synthesis engine. *)
Definition checkinIdle (w : World) : Prop :=
  Checkin.isSpeaking (checkinState w) = false /\
  Checkin.isListening (checkinState w) = false /\
  Checkin.micRecording (checkinView w) = false /\
  Checkin.voiceStatusActive (checkinView w) = false /\
  Checkin.indicatorHidden (checkinView w) = true /\
  synth w = [].

(** The booking loop at rest, as the page shows it. *)
Definition bookingIdle (w : World) : Prop :=
  Booking.isSpeaking (bookingState w) = false /\
  Booking.isListening (bookingState w) = false /\
  Booking.micActive (bookingView w) = false /\
  Booking.indicatorHidden (bookingView w) = true /\
  synth w = [].

(** What of a loop can be observed: its state object, its elements, its
    timers and requests, and the queue of the synthesis engine. *)
Definition checkinObservable (w : World) :=
  (checkinState w, checkinView w, timers (checkinHost w), requests (checkinHost w),
   synth w).

Definition bookingObservable (w : World) :=
  (bookingState w, bookingView w, timers (bookingHost w), requests (bookingHost w),
   synth w).

(** The speak functions find a voice for the language code without
    throwing: the code names no property of [Object.prototype], or the
    engine has no voice to try it on when utterance [u] is created. *)
Definition speakable (P : Platform) (code : string) (u : nat) : bool :=
  match lookupSpeechLang P code with
  | FromPrototype _ => negb (hasVoices P u)
  | _ => true
  end.

(** ** Listening sessions *)

(** The results an event reports: [event.results] from [event.resultIndex]. *)
Definition reported (e : ResultEvent) : list SpeechResult :=
  drop (resultIndex e) (results e).

(** The transcripts marked final among [rs], concatenated in order. *)
Fixpoint finals (rs : list SpeechResult) : string :=
  match rs with
  | [] => ""
  | x :: rs' => if isFinal x then transcript x ++ finals rs' else finals rs'
  end.

(** Following the specification's words: the concatenation, in arrival
    order, of exactly the segments the engine marked final during the
    session, a session being the result events it delivered. *)
Fixpoint spec_finalTranscriptBuffer (session : list ResultEvent) : string :=
  match session with
  | [] => ""
  | e :: session' => finals (reported e) ++ spec_finalTranscriptBuffer session'
  end.

(** What the handlers leave in [finalTranscript]: the finals of the last
    result event, or [before] when the session delivered none. *)
Definition last_finals (before : string) (session : list ResultEvent) : string :=
  match last session with
  | Some e => finals (reported e)
  | None => before
  end.

(** An event that reports interim results only. *)
Definition interim_only (e : ResultEvent) : bool :=
  forallb (fun x => negb (isFinal x)) (reported e).

(** The sessions the engine delivers to a recognizer whose [continuous]
    attribute is false, as the two loops set it: no more than one final
    result is returned in response to [start()] (Web Speech API), and it
    ends the session.  So every result event but the last reports interim
    results only. *)
Fixpoint single_shot (session : list ResultEvent) : bool :=
  match session with
  | [] => true
  | e :: session' =>
      match session' with
      | [] => true
      | _ :: _ => interim_only e && single_shot session'
      end
  end.

(** What the engine may deliver to a recognizer: a single-shot session
    unless the recognizer is continuous. *)
Definition engine_delivers (x : Recognizer) (session : list ResultEvent) : bool :=
  continuous x || single_shot session.

(** The result events of a session delivered to recognizer [r] of loop [o],
    then its end. *)
Definition deliver (P : Platform) (o : Loop) (r : nat) (session : list ResultEvent)
    (w : World) : World :=
  fold_left (fun w e => step P w (RecognitionResult o r e)) session w.

Definition session_over (P : Platform) (o : Loop) (r : nat)
    (session : list ResultEvent) (w : World) : World :=
  step P (deliver P o r session w) (RecognitionEnds o r).

(** ** Scenarios *)

(** Booking: the welcome message is being spoken. *)
Definition booking_speaking : World :=
  run full_browser
    [ BookingSessionCreated (Some 1) (Some 7) "English" "en" "Welcome to MedBridge.";
      UtteranceStarts BookingLoop 0 ]
    page_loaded.

(** Check-in: the greeting is being spoken. *)
Definition checkin_speaking : World :=
  run full_browser
    [ CheckinSessionCreated (Some 1) (Some 7) "Hello, I am Aria." false ]
    page_loaded.

(** Check-in: the greeting was spoken and the loop listens. *)
Definition checkin_listening : World :=
  run full_browser
    [ UtteranceEnds CheckinLoop 0; TimerFires CheckinLoop 0 ]
    checkin_speaking.

(** Booking: the welcome message was spoken and the loop listens. *)
Definition booking_listening : World :=
  run full_browser
    [ UtteranceEnds BookingLoop 0; TimerFires BookingLoop 0;
      RecognitionStarts BookingLoop 0 ]
    booking_speaking.

(** The [n]-th request is the only one of [h] whose promise is pending. *)
Definition only_in_flight (n : nat) (h : Host) : Prop :=
  in_flight h = true /\
  in_flight (upd_requests (alter mark_settled n) h) = false.

(** Check-in: a message was typed and sent while the loop was at rest, and
    the reply is awaited. *)
Definition checkin_submitting : World :=
  run full_browser
    [ UserTogglesAutoMode CheckinLoop;
      UserTypes CheckinLoop "I have a headache";
      UserPressesEnter CheckinLoop ]
    checkin_speaking.

(** Booking: the transcript heard was sent and the reply is awaited. *)
Definition booking_submitting : World :=
  run full_browser
    [ RecognitionResult BookingLoop 0 (MkResultEvent 0 [MkResult "tomorrow morning" true]);
      RecognitionEnds BookingLoop 0;
      TimerFires BookingLoop 0 ]
    booking_listening.

(** A session of one segment that is first interim, in two parts, then
    final. *)
Definition one_final_segment : list ResultEvent :=
  [ MkResultEvent 0 [MkResult "I have" false];
    MkResultEvent 0 [MkResult "I have" false; MkResult " a head" false];
    MkResultEvent 0 [MkResult "I have a headache" true] ].

(** The user opens the booking view, submits its form and, before the
    backend answers, moves on to the check-in view and starts a check-in;
    the greeting is spoken to its end.  Then the booking session is
    created and its welcome message is spoken, the user being in the
    check-in chat. *)
Definition booking_speaks_behind_checkin : World :=
  run full_browser
    [ UserNavigates "booking";
      UserNavigates "checkin";
      CheckinSessionCreated (Some 1) (Some 7) "Hello, I am Aria." false;
      UtteranceEnds CheckinLoop 0;
      BookingSessionCreated (Some 2) (Some 8) "English" "en" "Welcome to MedBridge.";
      UtteranceStarts BookingLoop 1 ]
    page_loaded.

(** Check-in: the loop heard one final segment and the session ended. *)
Definition checkin_heard : World :=
  run full_browser
    [ RecognitionResult CheckinLoop 0 (MkResultEvent 0 [MkResult "I have a headache " true]);
      RecognitionEnds CheckinLoop 0 ]
    checkin_listening.


(** Check-in with AutoMode on: the transcript heard was sent by the
    callback of the listening session, and the reply is awaited. *)
Definition checkin_awaiting_reply : World :=
  run full_browser [ TimerFires CheckinLoop 0 ] checkin_heard.

(** Check-in on a browser that speaks but has no [SpeechRecognition]: the
    greeting is being spoken. *)
Definition checkin_speaking_unheard : World :=
  run no_recognition
    [ CheckinSessionCreated (Some 1) (Some 7) "Hello, I am Aria." false ]
    page_loaded.

(** The body of an answer with an HTTP error status, such as
    [{"error": "..."}] with status 500: it is JSON, and none of the
    fields the loops read is present. *)
Definition checkin_error_answer : CheckinReply := MkCheckinReply "" false.

Definition booking_error_answer : BookingReply :=
  MkBookingReply "" "" "" [] false "" "" "".

(** ** Invariants of the event loop *)

(** A handle that holds an object. *)
Definition held (h : option nat) : bool :=
  match h with
  | Some _ => true
  | None => false
  end.

(** In the check-in loop the flags say what the handles hold. *)
Definition checkin_flags_match_handles (w : World) : Prop :=
  Checkin.isListening (checkinState w) = held (checkinRec w) /\
  Checkin.isSpeaking (checkinState w) = held (checkinUtterance w).

(** A request to the conversation service that names a session and
    carries a non-empty, trimmed message. *)
Definition well_formed_request (q : Request) : Prop :=
  truthyId (req_session q) = true /\
  Str.truthy (req_message q) = true /\
  Str.trim (req_message q) = req_message q.

(** ** Helpers of the portals *)

(** The text of an element read back as HTML, [div.textContent = text;
    div.innerHTML]: the serialization of a text node replaces the
    ampersand, the two angle brackets and the no-break space (the bytes
    194 160 of its UTF-8 form) by their entities and keeps everything
    else, quotes included. *)
Fixpoint serializeText (s : string) : string :=
  match s with
  | EmptyString => EmptyString
  | String c s' =>
      if Ascii.eqb c "&" then "&amp;" ++ serializeText s'
      else if Ascii.eqb c "<" then "&lt;" ++ serializeText s'
      else if Ascii.eqb c ">" then "&gt;" ++ serializeText s'
      else if Ascii.eqb c (ascii_of_nat 194) then
        match s' with
        | String d s'' =>
            if Ascii.eqb d (ascii_of_nat 160) then "&nbsp;" ++ serializeText s''
            else String c (serializeText s')
        | EmptyString => String c EmptyString
        end
      else String c (serializeText s')
  end.

(** [escapeHtml(text)]; [None] stands for [undefined] or [null]. *)
Definition escapeHtml (text : option string) : string :=
  match text with
  | Some t => if Str.truthy t then serializeText t else ""
  | None => ""
  end.

(** The characters that [escapeHtml] rewrites, or begins to. *)
Definition plain (c : ascii) : bool :=
  negb (Ascii.eqb c "&" || Ascii.eqb c "<" || Ascii.eqb c ">"
        || Ascii.eqb c (ascii_of_nat 194)).

Fixpoint all_chars (p : ascii -> bool) (s : string) : bool :=
  match s with
  | EmptyString => true
  | String c s' => p c && all_chars p s'
  end.

(** [langs.slice(from, to)] for indices within the usual order. *)
Definition slice {A : Type} (from to : nat) (l : list A) : list A :=
  take (to - from) (drop from l).

(** The option groups [populateCheckinLanguageDropdown] builds from
    [Object.keys(state.languages)]: three slices under fixed labels, a
    group without items being skipped. *)
Definition languageGroups (langs : list string) : list (string * list string) :=
  List.filter (fun group => negb (Nat.eqb (length (snd group)) 0))
    [ ("Singapore Official Languages", slice 0 4 langs);
      ("Singapore Chinese Dialects", slice 4 9 langs);
      ("Southeast Asian Languages", drop 9 langs) ].

(** The values of the options of the language select, in document order. *)
Definition languageOptions (langs : list string) : list string :=
  concat (map snd (languageGroups langs)).

(** ** The handlers outside the two voice sections *)

(** One entry of [state.languages], the answer of [/api/languages]: a
    missing [code] is the empty string, missing [dialects] the empty list. *)
Record Language := MkLanguage {
  code : string;
  dialects : list string
}.

(** [state.languages[lang]]: the object's keys in their order, each once.
    (For a name the server did not list the lookup may find a property of
    [Object.prototype]; it has neither [code] nor [dialects], so what is
    read off it is what is read off no entry at all.) *)
Fixpoint lookupLanguage (languages : list (string * Language)) (lang : string)
    : option Language :=
  match languages with
  | [] => None
  | (name, info) :: rest =>
      if String.eqb lang name then Some info else lookupLanguage rest lang
  end.

(** [(state.languages[lang] || {}).code || 'en'] *)
Definition languageCode (languages : list (string * Language)) (lang : string) : string :=
  match lookupLanguage languages lang with
  | Some info => Str.or (code info) "en"
  | None => "en"
  end.

(** The values of the options a dialect select is filled with: the
    placeholder, whose value is empty, then
    [(state.languages[lang] || {}).dialects || []]. *)
Definition dialectOptions (languages : list (string * Language)) (lang : string)
    : list string :=
  "" :: match lookupLanguage languages lang with
        | Some info => dialects info
        | None => []
        end.

(** [updateBookingDialects()], [lang] being the value of the language
    select; the computation returns the options it fills the dialect
    select with. *)
Definition updateBookingDialects (languages : list (string * Language)) (lang : string)
    : JS (list string) :=
  (bk_state (Booking.set_langCode (languageCode languages lang)) ;;
   bk_state (Booking.set_langName lang) ;;
   ret (dialectOptions languages lang))%js.

(** [completeCheckin()] up to its [await fetch(.../complete)]; [confirmed]
    is the answer of the [confirm()] dialog.  What follows the answer (the
    spinner, the text of the summary and the marking of the summary step)
    writes to no flag, handle, timer, request or indicator of the loops
    and is left out. *)
Definition completeCheckin (P : Platform) (confirmed : bool) : JS unit :=
  (w <- current ;;
   if negb (truthyId (Checkin.sessionId (checkinState w))) then ret tt else
   if negb confirmed then ret tt else
   stopCheckinSpeaking P ;;
   stopCheckinVoice P)%js.

(** The rest of [confirmBooking()] once [/confirm] has answered with
    success, inside its [try] block. *)
Definition confirmBooking_done (P : Platform) (data : BookingReply) : JS unit :=
  try_catch (showBookingConfirmed P data)
    (fun _ => alert "Failed to confirm booking. Please try again.").

(** [item.onclick] of a slot of the state card *)
Definition selectSlot (slot : nat) : JS unit :=
  bk_state (Booking.set_selectedSlotId (Some slot)).

(** One turn of the event loop: an event of the voice sections, or one of
    the other handlers that write to the state of the loops. *)
Inductive Turn :=
  | Ev (ev : Event)
  | CheckinFormSubmitted (language code : string)
  | CheckinCompleted (confirmed : bool)
  | BookingLanguageChosen (languages : list (string * Language)) (lang : string)
  | BookingConfirmed (data : BookingReply)
  | SlotClicked (slot : nat).

Definition turn (P : Platform) (w : World) (t : Turn) : World :=
  match t with
  | Ev ev => step P w ev
  | CheckinFormSubmitted language code => exec (handleCheckinSetup language code) w
  | CheckinCompleted confirmed => exec (completeCheckin P confirmed) w
  | BookingLanguageChosen languages lang => exec (updateBookingDialects languages lang) w
  | BookingConfirmed data => exec (confirmBooking_done P data) w
  | SlotClicked slot => exec (selectSlot slot) w
  end.

Definition turns (P : Platform) (ts : list Turn) (w : World) : World :=
  fold_left (turn P) ts w.

(** * Properties *)

(** ** Proof tools *)

Ltac world w :=
  destruct w as [? [? ? ? ? ? ? ?] ? ? [? ? ? ? ? ? ? ? ? ? ? ? ?] [? ? ?]
                    [? ? ? ? ? ? ? ?] ? ? [? ? ? ? ? ? ? ? ? ? ? ? ? ?] [? ? ?]
                    ? ? ? ?].

Ltac platform P := destruct P as [synthesis recognition startT stopT voices proto views].

Ltac reduce :=
  cbv -[Str.trim Str.truthy truthyId or_typed speechLang String.append
        lookupSpeechLang String.eqb app alter lookup drop filter delete length gather finals
        mark_started mark_stopped mark_settled with_final Nat.pred
        list_alter list_lookup list_delete list_filter].

(** Decides the comparisons of string constants. *)
Ltac compare_constants :=
  repeat match goal with
         | |- context [String.eqb ?a ?b] =>
             let v := eval cbv in (String.eqb a b) in
             lazymatch v with
             | true => change (String.eqb a b) with true
             | false => change (String.eqb a b) with false
             end
         end.

(** The updates of a recognizer or a request are carried out on a record
    that is given, and left alone as arguments of [alter]. *)
Arguments mark_started !r /.
Arguments mark_stopped !r /.
Arguments with_final s !r /.
Arguments mark_settled !q /.

(** Runs a computation on a world given by its fields. *)
Ltac js :=
  reduce; compare_constants;
  cbn [mark_started mark_stopped with_final mark_settled]; reduce.

Ltac atomic x :=
  lazymatch x with
  | context [match _ with _ => _ end] => fail
  | _ => idtac
  end.

(** Case analysis on every test the computation is stuck on. *)
Ltac case_one :=
  match goal with
  | |- context [match ?x with _ => _ end] => atomic x; destruct x eqn:?
  end.

Ltac cases := repeat (case_one; js).

(** ** Strings *)

(** Case analysis on the first three bytes of a string, as [whiteSpace]
    reads them. *)
Ltac by_bytes s :=
  let a := fresh "a" in let b := fresh "b" in let c := fresh "c" in
  let s1 := fresh "s" in let s2 := fresh "s" in let s3 := fresh "s" in
  destruct s as [|a s1]; [try reflexivity; try discriminate|];
  cbn [Str.trimStart Str.blank Str.whiteSpace String.append];
  destruct (Str.whiteSpace1 (nat_of_ascii a)); [|
  destruct s1 as [|b s2]; [try reflexivity; try discriminate|];
  cbn [Str.trimStart Str.blank Str.whiteSpace String.append];
  destruct (Str.whiteSpace2 (nat_of_ascii a) (nat_of_ascii b)); [|
  destruct s2 as [|c s3]; [try reflexivity; try discriminate|];
  cbn [Str.trimStart Str.blank Str.whiteSpace String.append];
  destruct (Str.whiteSpace3 (nat_of_ascii a) (nat_of_ascii b) (nat_of_ascii c))]].

Lemma trimStart_eq s :
  Str.trimStart s =
  match Str.whiteSpace s with
  | Some rest => Str.trimStart rest
  | None => s
  end.
Proof. by_bytes s; reflexivity. Qed.

Lemma blank_eq s :
  Str.blank s =
  match s with
  | EmptyString => true
  | _ => match Str.whiteSpace s with
         | Some rest => Str.blank rest
         | None => false
         end
  end.
Proof. by_bytes s; reflexivity. Qed.

Lemma whiteSpace_shorter s rest :
  Str.whiteSpace s = Some rest -> String.length rest < String.length s.
Proof. by_bytes s; intros [= <-]; simpl; lia. Qed.

Lemma whiteSpace_app s rest t :
  Str.whiteSpace s = Some rest -> Str.whiteSpace (s ++ t) = Some (rest ++ t).
Proof. by_bytes s; intros [= <-]; reflexivity. Qed.

(** What [trimStart] leaves does not begin with white space. *)
Lemma trimStart_done (n : nat) :
  forall s, String.length s <= n -> Str.whiteSpace (Str.trimStart s) = None.
Proof.
  induction n as [|n IH]; intros s Hn; rewrite trimStart_eq.
  - destruct s; [reflexivity | simpl in Hn; lia].
  - destruct (Str.whiteSpace s) as [rest|] eqn:E; [|exact E].
    apply IH. apply whiteSpace_shorter in E. lia.
Qed.

Lemma blank_app (n : nat) :
  forall s t, String.length s <= n ->
  Str.blank s = true -> Str.blank t = true -> Str.blank (s ++ t) = true.
Proof.
  induction n as [|n IH]; intros s t Hn Hs Ht.
  - destruct s; [exact Ht | simpl in Hn; lia].
  - destruct s as [|a s1]; [exact Ht|].
    rewrite blank_eq in Hs. rewrite blank_eq. cbn [String.append].
    change (String a (s1 ++ t)) with (String a s1 ++ t).
    destruct (Str.whiteSpace (String a s1)) as [rest|] eqn:E; [|discriminate].
    rewrite (whiteSpace_app _ _ t E).
    apply IH; [|exact Hs|exact Ht]. apply whiteSpace_shorter in E. simpl in *. lia.
Qed.

(** [trimEnd] cuts a blank end off. *)
Lemma trimEnd_split s :
  exists t, s = Str.trimEnd s ++ t /\ Str.blank t = true.
Proof.
  induction s as [|a s IH].
  - exists "". split; reflexivity.
  - cbn [Str.trimEnd]. destruct (Str.blank (String a s)) eqn:E.
    + exists (String a s). split; [reflexivity | exact E].
    + destruct IH as (t & Hs & Ht). exists t. split; [|exact Ht].
      cbn [String.append]. rewrite <- Hs. reflexivity.
Qed.

Lemma trimEnd_idem s : Str.trimEnd (Str.trimEnd s) = Str.trimEnd s.
Proof.
  induction s as [|a s IH]; [reflexivity|].
  cbn [Str.trimEnd]. destruct (Str.blank (String a s)) eqn:E; [reflexivity|].
  cbn [Str.trimEnd]. rewrite IH.
  destruct (Str.blank (String a (Str.trimEnd s))) eqn:E'; [|reflexivity].
  destruct (trimEnd_split s) as (t & Hs & Ht).
  pose proof (blank_app _ (String a (Str.trimEnd s)) t (le_n _) E' Ht) as H.
  cbn [String.append] in H. rewrite <- Hs in H. congruence.
Qed.

Lemma trimEnd_keeps_start s :
  Str.whiteSpace s = None -> Str.whiteSpace (Str.trimEnd s) = None.
Proof.
  intros H. destruct (Str.whiteSpace (Str.trimEnd s)) as [rest|] eqn:E; [|reflexivity].
  destruct (trimEnd_split s) as (t & Hs & _).
  apply (whiteSpace_app _ _ t) in E. rewrite <- Hs in E. congruence.
Qed.

(** [trim] is idempotent: trimming a trimmed string changes nothing. *)
Lemma trim_idem s : Str.trim (Str.trim s) = Str.trim s.
Proof.
  unfold Str.trim.
  rewrite (trimStart_eq (Str.trimEnd _)), trimEnd_keeps_start.
  - apply trimEnd_idem.
  - apply (trimStart_done (String.length s)). lia.
Qed.

(** [trim] on the no-break space, the ideographic space and the byte order
    mark, which take two and three bytes, and on the zero width space,
    which is no white space. *)
Example trim_unicode :
  Str.trim (Str.bytes [194; 160]) = "" /\
  Str.trim (Str.bytes [227; 128; 128; 9; 239; 187; 191]) = "" /\
  Str.trim (Str.bytes [227; 128; 128; 97; 32; 98; 226; 128; 137; 10]) = "a b" /\
  Str.trim (Str.bytes [226; 128; 139; 97]) = Str.bytes [226; 128; 139; 97].
Proof. repeat split; reflexivity. Qed.

Lemma append_assoc (a b c : string) : (a ++ b) ++ c = a ++ (b ++ c).
Proof. induction a as [|x a IH]; simpl; [reflexivity|]. rewrite IH. reflexivity. Qed.

Lemma append_empty_r (a : string) : a ++ "" = a.
Proof. induction a as [|x a IH]; simpl; [reflexivity|]. rewrite IH. reflexivity. Qed.

(** ** Guard of the send functions *)

Lemma truthy_nonempty (s : string) : s <> "" -> Str.truthy s = true.
Proof. destruct s; [congruence | reflexivity]. Qed.

(** C10. A call of [sendCheckinMessage] or [sendBookingMessage] whose
    effective text trims to the empty string, or made while no backend
    session id is set, returns at once and leaves the whole world as it
    was: no bubble, no request, no change of any flag, handle or element.
    The guard is no wider than that: in every other case the call appends
    the user bubble and issues one request with the trimmed text. *)
Theorem send_message_guard_noop (P : Platform) (w : World) (override : option string) :
  (Str.trim (or_typed override (Checkin.inputValue (checkinView w))) = "" \/
   truthyId (Checkin.sessionId (checkinState w)) = false ->
   sendCheckinMessage override w = (Normal tt, w)) /\
  (Str.trim (or_typed override (Booking.inputValue (bookingView w))) = "" \/
   truthyId (Booking.bookingSessionId (bookingState w)) = false ->
   sendBookingMessage P override w = (Normal tt, w)) /\
  (let text := Str.trim (or_typed override (Checkin.inputValue (checkinView w))) in
   let w' := exec (sendCheckinMessage override) w in
   text <> "" ->
   truthyId (Checkin.sessionId (checkinState w)) = true ->
   requests (checkinHost w') =
     (requests (checkinHost w) ++
      [MkRequest (Checkin.sessionId (checkinState w)) text false])%list /\
   Checkin.messages (checkinView w') =
     (Checkin.messages (checkinView w) ++ [(user, text)])%list) /\
  (let text := Str.trim (or_typed override (Booking.inputValue (bookingView w))) in
   let w' := exec (sendBookingMessage P override) w in
   text <> "" ->
   truthyId (Booking.bookingSessionId (bookingState w)) = true ->
   requests (bookingHost w') =
     (requests (bookingHost w) ++
      [MkRequest (Booking.bookingSessionId (bookingState w)) text false])%list /\
   Booking.messages (bookingView w') =
     (Booking.messages (bookingView w) ++ [(user, text)])%list).
Proof.
  platform P. world w. split; [|split; [|split]]; js.
  - intros [-> | ->]; cbv [Str.truthy truthyId]; cases; reflexivity.
  - intros [-> | ->]; cbv [Str.truthy truthyId]; cases; reflexivity.
  - intros Htext ->. rewrite (truthy_nonempty _ Htext). js. split; reflexivity.
  - intros Htext ->. rewrite (truthy_nonempty _ Htext). js. cases; split; reflexivity.
Qed.

Lemma send_message_guard_noop_witness :
  let spaces := Str.bytes [32; 194; 160; 227; 128; 128; 10] in
  Str.trim spaces = "" /\
  truthyId (Checkin.sessionId (checkinState checkin_speaking)) = true /\
  sendCheckinMessage (Some spaces) checkin_speaking = (Normal tt, checkin_speaking) /\
  sendBookingMessage full_browser (Some spaces) booking_speaking
    = (Normal tt, booking_speaking) /\
  sendBookingMessage full_browser (Some "tomorrow") page_loaded = (Normal tt, page_loaded) /\
  requests (checkinHost (exec (sendCheckinMessage (Some " I have a headache "))
                           checkin_speaking))
    = [MkRequest (Some 7) "I have a headache" false] /\
  requests (bookingHost (exec (sendBookingMessage full_browser (Some "tomorrow"))
                           booking_speaking))
    = [MkRequest (Some 7) "tomorrow" false].
Proof.
  split; [reflexivity|]. split; [reflexivity|]. split; [|split; [|split; [|split]]].
  - apply (proj1 (send_message_guard_noop full_browser checkin_speaking
                    (Some (Str.bytes [32; 194; 160; 227; 128; 128; 10])))).
    left. reflexivity.
  - apply (proj1 (proj2 (send_message_guard_noop full_browser booking_speaking
                           (Some (Str.bytes [32; 194; 160; 227; 128; 128; 10]))))).
    left. reflexivity.
  - apply (proj1 (proj2 (send_message_guard_noop full_browser page_loaded
                           (Some "tomorrow")))).
    right. reflexivity.
  - apply (proj1 (proj2 (proj2 (send_message_guard_noop full_browser checkin_speaking
                                  (Some " I have a headache "))))).
    + discriminate.
    + reflexivity.
  - apply (proj2 (proj2 (proj2 (send_message_guard_noop full_browser booking_speaking
                                  (Some "tomorrow"))))).
    + discriminate.
    + reflexivity.
Defined.

(** ** Stopping *)

(** C9 (the check-in loop breaks it). [stopCheckinSpeaking] leaves the
    voice indicator as it is.  On a browser that speaks but has no
    [SpeechRecognition] the greeting is being spoken and the user taps the
    microphone: [toggleCheckinVoice] stops the speech, the start of
    listening returns at once, and when the handler returns the indicator
    still shows that Aria is speaking.  The same on any browser when
    [stopCheckinSpeaking] is called by itself.  Its sibling
    [stopBookingSpeaking] hides the indicator of its view. *)
Theorem checkin_stop_speaking_leaves_indicator :
  let w := checkin_speaking_unheard in
  let w' := step no_recognition w (UserTogglesVoice CheckinLoop) in
  let v' := exec (stopCheckinSpeaking full_browser) checkin_speaking in
  let b' := exec (stopBookingSpeaking full_browser) booking_speaking in
  (Checkin.isSpeaking (checkinState w) = true /\
   Checkin.indicatorHidden (checkinView w) = false /\
   Checkin.indicatorText (checkinView w) = "Aria is speaking…") /\
  (Checkin.isSpeaking (checkinState w') = false /\
   Checkin.isListening (checkinState w') = false /\
   checkinUtterance w' = None /\
   synth w' = [] /\
   Checkin.indicatorHidden (checkinView w') = false /\
   Checkin.indicatorText (checkinView w') = "Aria is speaking…") /\
  (returns (stopCheckinSpeaking full_browser) checkin_speaking = true /\
   Checkin.isSpeaking (checkinState v') = false /\
   synth v' = [] /\
   Checkin.indicatorHidden (checkinView v') = false /\
   Checkin.indicatorText (checkinView v') = "Aria is speaking…") /\
  (Booking.isSpeaking (bookingState booking_speaking) = true /\
   Booking.indicatorHidden (bookingView booking_speaking) = false /\
   Booking.isSpeaking (bookingState b') = false /\
   Booking.indicatorHidden (bookingView b') = true).
Proof. vm_compute. repeat split; reflexivity. Qed.

(** On an engine whose [stop()] throws, stopping an active listening
    session still returns and releases the handle. *)
Example stop_on_throwing_engine :
  checkinRec checkin_listening = Some 0 /\
  stopThrows throwing_engine CheckinLoop 0 = true /\
  returns (stopCheckinVoice throwing_engine) checkin_listening = true /\
  checkinRec (exec (stopCheckinVoice throwing_engine) checkin_listening) = None /\
  Checkin.indicatorHidden
    (checkinView (exec (stopCheckinVoice throwing_engine) checkin_listening)) = true.
Proof. vm_compute. repeat split; reflexivity. Qed.

(** ** Mutual exclusion of speaking and listening *)

(** C1 (the booking loop breaks it). While the welcome message of the
    booking loop is being spoken the user taps the microphone:
    [toggleBookingVoice] starts a recognizer without stopping the speech,
    and once the engine reports the start both [isSpeaking] and
    [isListening] are true, the utterance still in the queue of the
    synthesis engine. *)
Theorem booking_speaks_and_listens_at_once :
  let w := run full_browser
             [ UserTogglesVoice BookingLoop; RecognitionStarts BookingLoop 0 ]
             booking_speaking in
  Booking.isSpeaking (bookingState booking_speaking) = true /\
  Booking.isListening (bookingState booking_speaking) = false /\
  Booking.isSpeaking (bookingState w) = true /\
  Booking.isListening (bookingState w) = true /\
  utterances_of BookingLoop w =
    [MkUtterance 0 BookingLoop "Welcome to MedBridge." "en-SG"] /\
  rec_started <$> recognizers (bookingHost w) !! 0 = Some true.
Proof. vm_compute. repeat split; reflexivity. Qed.

(** The same in the other order: the booking loop listens, a reply
    arrives, [bookingSpeakThenListen] speaks it without stopping the
    recognizer. *)
Example booking_speaks_over_listening :
  let w := run full_browser
             [ BookingCancelled; UtteranceStarts BookingLoop 1 ]
             booking_listening in
  Booking.isListening (bookingState booking_listening) = true /\
  Booking.isSpeaking (bookingState w) = true /\
  Booking.isListening (bookingState w) = true /\
  bookingRec w = Some 0.
Proof. vm_compute. repeat split; reflexivity. Qed.

(** The check-in loop: the settle-delay timer of one utterance fires after
    the reply to a typed message has started the next utterance;
    [startCheckinListening] does not stop the speech. *)
Example checkin_timer_meets_next_utterance :
  let w := run full_browser
             [ UserTypes CheckinLoop "I have a headache";
               UserPressesEnter CheckinLoop;
               UtteranceEnds CheckinLoop 0;
               CheckinRequestSettles 0 (Fulfilled (MkCheckinReply "Since when?" false));
               TimerFires CheckinLoop 0 ]
             checkin_speaking in
  Checkin.isSpeaking (checkinState w) = true /\
  Checkin.isListening (checkinState w) = true.
Proof. vm_compute. split; reflexivity. Qed.

(** What the check-in loop does do: starting speech output stops the
    listening session first, and the microphone button stops the speech
    before it starts listening. *)
Lemma checkin_speak_stops_listening (P : Platform) (text : string) (w : World) :
  hasSpeechSynthesis P = true ->
  let w' := exec (checkinSpeakThenListen P text) w in
  Checkin.isListening (checkinState w') = false /\
  checkinRec w' = None /\
  (returns (checkinSpeakThenListen P text) w = true ->
   Checkin.isSpeaking (checkinState w') = true).
Proof.
  platform P. world w. simpl. intros ->. js.
  cases; repeat split; try reflexivity; discriminate.
Qed.

Lemma checkin_mic_stops_speech (P : Platform) (w : World) :
  let w' := exec (toggleCheckinVoice P) w in
  Checkin.isSpeaking (checkinState w') && Checkin.isListening (checkinState w') = false.
Proof.
  platform P. world w. js. cases; reflexivity.
Qed.

(** ** The end of a listening session *)




(** ** Transport failure *)

(** C6 (the send functions break it). The service answers a submission
    with an HTTP error status and a JSON body.  Neither send function
    tests [res.ok], so the answer is taken for a reply: an assistant
    bubble without text is appended instead of the apology, the empty
    reply is spoken, and when the utterance has ended the loop starts
    listening by itself.  Only a rejected promise takes the [catch] path. *)
Theorem error_answer_is_taken_for_a_reply :
  (let w := step full_browser checkin_awaiting_reply
              (CheckinRequestSettles 0 (Fulfilled checkin_error_answer)) in
   let w' := run full_browser [ UtteranceEnds CheckinLoop 1; TimerFires CheckinLoop 0 ] w in
   requests (checkinHost checkin_awaiting_reply) =
     [MkRequest (Some 7) "I have a headache" false] /\
   checkinPhase checkin_awaiting_reply = Submitting /\
   Checkin.messages (checkinView w) =
     [ (assistant, "Hello, I am Aria."); (user, "I have a headache"); (assistant, "") ] /\
   synth w = [MkUtterance 1 CheckinLoop "" "en-SG"] /\
   checkinPhase w = Speaking /\
   timers (checkinHost (step full_browser w (UtteranceEnds CheckinLoop 1)))
     = [(StartListening, 400)] /\
   checkinPhase w' = Listening /\
   checkinRec w' = Some 1) /\
  (let w := step full_browser booking_submitting
              (BookingRequestSettles 0 (Fulfilled booking_error_answer)) in
   let w' := run full_browser
               [ UtteranceStarts BookingLoop 1; UtteranceEnds BookingLoop 1;
                 TimerFires BookingLoop 0; RecognitionStarts BookingLoop 1 ] w in
   bookingPhase booking_submitting = Submitting /\
   Booking.messages (bookingView w) =
     [ (assistant, "Welcome to MedBridge."); (user, "tomorrow morning"); (assistant, "") ] /\
   synth w = [MkUtterance 1 BookingLoop "" "en-SG"] /\
   bookingPhase w' = Listening /\
   bookingRec w' = Some 1).
Proof. vm_compute. repeat split; reflexivity. Qed.

(** What the rejection of a check-in request does to the world: the
    request is settled, one typing indicator goes, one apology bubble is
    appended and the two buttons are enabled again; nothing else. *)
Lemma checkin_failure_effect (P : Platform) (n : nat) (w : World) :
  step P w (CheckinRequestSettles n Rejected) =
  upd_checkinView
    (fun v => Checkin.set_sendToDoctorDisabled false
                (Checkin.set_sendDisabled false
                   (Checkin.set_messages
                      (Checkin.messages v ++
                       [(assistant, "[Connection error — please try again.]")])%list
                      (Checkin.set_typing (Nat.pred (Checkin.typing v)) v))))
    (upd_checkinHost (upd_requests (alter mark_settled n)) w).
Proof. world w. reflexivity. Qed.

(** The same for the booking loop: the request is settled and one apology
    bubble is appended; nothing else. *)
Lemma booking_failure_effect (P : Platform) (n : nat) (w : World) :
  step P w (BookingRequestSettles n Rejected) =
  upd_bookingView
    (fun v => Booking.set_messages
                (Booking.messages v ++
                 [(assistant, "[Error communicating with server. Please try again.]")])%list
                v)
    (upd_bookingHost (upd_requests (alter mark_settled n)) w).
Proof. world w. reflexivity. Qed.

(** Scenario C: the request of the submission is rejected. *)
Example scenario_C :
  let w := step full_browser booking_submitting (BookingRequestSettles 0 Rejected) in
  requests (bookingHost booking_submitting) = [MkRequest (Some 7) "tomorrow morning" false] /\
  requests (bookingHost w) = [MkRequest (Some 7) "tomorrow morning" true] /\
  Booking.messages (bookingView w) =
    [ (assistant, "Welcome to MedBridge.");
      (user, "tomorrow morning");
      (assistant, "[Error communicating with server. Please try again.]") ] /\
  timers (bookingHost w) = [] /\
  synth w = [] /\
  bookingPhase w = Idle.
Proof. vm_compute. repeat split; reflexivity. Qed.

(** X21. When the promise of a submission is rejected (the network
    failed, or the body of the answer is not JSON), exactly one apology
    bubble is appended to the transcript, the request is marked settled
    and no other request is issued, no timer is scheduled, no recognizer
    is created or started and nothing is queued for speech; the flags of
    the loop stay as they were, so a loop that was submitting is at rest
    afterwards.  The check-in loop also removes one typing indicator and
    enables its buttons again; the booking loop leaves its status text as
    it was. *)
Theorem rejected_request_parks_loop (P : Platform) (n : nat) (w : World) :
  (let w' := step P w (CheckinRequestSettles n Rejected) in
   Checkin.messages (checkinView w') =
     (Checkin.messages (checkinView w) ++
      [(assistant, "[Connection error — please try again.]")])%list /\
   requests (checkinHost w') = alter mark_settled n (requests (checkinHost w)) /\
   timers (checkinHost w') = timers (checkinHost w) /\
   recognizers (checkinHost w') = recognizers (checkinHost w) /\
   synth w' = synth w /\
   checkinState w' = checkinState w /\
   checkinRec w' = checkinRec w /\
   checkinUtterance w' = checkinUtterance w /\
   Checkin.typing (checkinView w') = Nat.pred (Checkin.typing (checkinView w)) /\
   Checkin.sendDisabled (checkinView w') = false /\
   (checkinPhase w = Submitting -> only_in_flight n (checkinHost w) ->
    checkinPhase w' = Idle)) /\
  (let w' := step P w (BookingRequestSettles n Rejected) in
   Booking.messages (bookingView w') =
     (Booking.messages (bookingView w) ++
      [(assistant, "[Error communicating with server. Please try again.]")])%list /\
   requests (bookingHost w') = alter mark_settled n (requests (bookingHost w)) /\
   timers (bookingHost w') = timers (bookingHost w) /\
   recognizers (bookingHost w') = recognizers (bookingHost w) /\
   synth w' = synth w /\
   bookingState w' = bookingState w /\
   bookingRec w' = bookingRec w /\
   bookingUtterance w' = bookingUtterance w /\
   Booking.statusText (bookingView w') = Booking.statusText (bookingView w) /\
   (bookingPhase w = Submitting -> only_in_flight n (bookingHost w) ->
    bookingPhase w' = Idle)).
Proof.
  cbv zeta. rewrite checkin_failure_effect, booking_failure_effect.
  world w. unfold checkinPhase, bookingPhase, only_in_flight. simpl.
  split; repeat (split; [reflexivity|]).
  - destruct isSpeaking; [discriminate|]. destruct isListening; [discriminate|].
    intros _ [_ ->]. reflexivity.
  - destruct isSpeaking0; [discriminate|]. destruct isListening0; [discriminate|].
    intros _ [_ ->]. reflexivity.
Qed.

Lemma rejected_request_parks_loop_witness :
  checkinPhase checkin_submitting = Submitting /\
  only_in_flight 0 (checkinHost checkin_submitting) /\
  checkinPhase (step full_browser checkin_submitting (CheckinRequestSettles 0 Rejected)) = Idle /\
  bookingPhase booking_submitting = Submitting /\
  only_in_flight 0 (bookingHost booking_submitting) /\
  bookingPhase (step full_browser booking_submitting (BookingRequestSettles 0 Rejected)) = Idle.
Proof.
  assert (Hc : only_in_flight 0 (checkinHost checkin_submitting)) by (split; reflexivity).
  assert (Hb : only_in_flight 0 (bookingHost booking_submitting)) by (split; reflexivity).
  split; [reflexivity|]. split; [exact Hc|]. split.
  - destruct (rejected_request_parks_loop full_browser 0 checkin_submitting) as [Hck _].
    apply Hck; [reflexivity | exact Hc].
  - split; [reflexivity|]. split; [exact Hb|].
    destruct (rejected_request_parks_loop full_browser 0 booking_submitting) as [_ Hbk].
    apply Hbk; [reflexivity | exact Hb].
Defined.

(** Two messages are typed and sent before the first reply: two typing
    indicators are in the transcript, and the first reply removes one. *)
Example two_messages_pending :
  let w := run full_browser
             [ UserTogglesAutoMode CheckinLoop;
               UserTypes CheckinLoop "I have a headache"; UserPressesEnter CheckinLoop;
               UserTypes CheckinLoop "and a fever"; UserPressesEnter CheckinLoop ]
             checkin_speaking in
  let w' := step full_browser w (CheckinRequestSettles 0 Rejected) in
  Checkin.typing (checkinView w) = 2 /\
  Checkin.typing (checkinView w') = 1 /\
  checkinPhase w' = Submitting.
Proof. vm_compute. repeat split; reflexivity. Qed.

(** ** The end of a speaking job *)

Lemma lookup_snoc {A : Type} (l : list A) (x : A) : (l ++ [x])%list !! length l = Some x.
Proof. induction l as [|y l IH]; simpl; [reflexivity | exact IH]. Qed.

Lemma lookup_snoc_alter {A : Type} (f : A -> A) (i : nat) (l : list A) (x : A) :
  (alter f i l ++ [x])%list !! length l = Some x.
Proof. rewrite <- (length_alter f l i). apply lookup_snoc. Qed.

Lemma alter_snoc {A : Type} (f : A -> A) (l : list A) (x : A) :
  alter f (length l) (l ++ [x])%list = (l ++ [f x])%list.
Proof. induction l as [|y l IH]; simpl; [reflexivity|]. f_equal. exact IH. Qed.

Lemma alter_snoc_alter {A : Type} (f g : A -> A) (i : nat) (l : list A) (x : A) :
  alter f (length l) (alter g i l ++ [x])%list = (alter g i l ++ [f x])%list.
Proof. rewrite <- (length_alter g l i). apply alter_snoc. Qed.

(** Case analysis as [cases], for computations that create a recognizer:
    the new recognizer is the last of the list. *)
Ltac cases_new :=
  repeat (first [ rewrite alter_snoc | rewrite alter_snoc_alter
                | rewrite lookup_snoc | rewrite lookup_snoc_alter
                | rewrite length_alter | case_one ]; js).




(** Scenario A on a browser with both engines: greeting, settle delay,
    listening, one final transcript, submission, and the next turn. *)
Example scenario_A :
  let w := run full_browser
             [ CheckinSessionCreated (Some 1) (Some 7) "Please describe your main symptom." false;
               UtteranceEnds CheckinLoop 0;
               TimerFires CheckinLoop 0;
               RecognitionResult CheckinLoop 0 (MkResultEvent 0 [MkResult "I have a headache" true]);
               RecognitionEnds CheckinLoop 0;
               TimerFires CheckinLoop 0;
               CheckinRequestSettles 0 (Fulfilled (MkCheckinReply "Since when?" false)) ]
             page_loaded in
  requests (checkinHost w) = [MkRequest (Some 7) "I have a headache" true] /\
  Checkin.messages (checkinView w) =
    [ (assistant, "Please describe your main symptom.");
      (user, "I have a headache");
      (assistant, "Since when?") ] /\
  synth w = [MkUtterance 1 CheckinLoop "Since when?" "en-SG"] /\
  checkinPhase w = Speaking.
Proof. vm_compute. repeat split; reflexivity. Qed.

(** Scenario D in the booking loop: AutoMode is turned off while the loop
    listens; the recognizer is not stopped, and at its end the transcript
    stays in the input field, nothing being scheduled or sent. *)
Example scenario_D_booking :
  let w := step full_browser booking_listening (UserTogglesAutoMode BookingLoop) in
  let w' := run full_browser
              [ RecognitionResult BookingLoop 0
                  (MkResultEvent 0 [MkResult "tomorrow morning" true]);
                RecognitionEnds BookingLoop 0 ]
              w in
  Booking.isListening (bookingState w) = true /\
  bookingRec w = Some 0 /\
  rec_stopped <$> recognizers (bookingHost w) !! 0 = Some false /\
  timers (bookingHost w') = [] /\
  requests (bookingHost w') = [] /\
  Booking.inputValue (bookingView w') = "tomorrow morning" /\
  bookingPhase w' = Idle.
Proof. vm_compute. repeat split; reflexivity. Qed.

(** ** Toggling AutoMode *)

(** C2 as stated fails in the check-in loop: turning AutoMode off while
    the greeting is spoken cancels the utterance at once, and turning it
    off while the loop listens stops the recognizer. *)
Lemma toggle_auto_mode_interrupts_checkin :
  let w := step full_browser checkin_speaking (UserTogglesAutoMode CheckinLoop) in
  let w' := step full_browser checkin_listening (UserTogglesAutoMode CheckinLoop) in
  (Checkin.isSpeaking (checkinState checkin_speaking) = true /\
   utterances_of CheckinLoop checkin_speaking =
     [MkUtterance 0 CheckinLoop "Hello, I am Aria." "en-SG"] /\
   Checkin.isAutoMode (checkinState w) = false /\
   Checkin.isSpeaking (checkinState w) = false /\
   utterances_of CheckinLoop w = []) /\
  (Checkin.isListening (checkinState checkin_listening) = true /\
   rec_stopped <$> recognizers (checkinHost checkin_listening) !! 0 = Some false /\
   Checkin.isListening (checkinState w') = false /\
   checkinRec w' = None /\
   rec_stopped <$> recognizers (checkinHost w') !! 0 = Some true).
Proof. vm_compute. repeat split; reflexivity. Qed.

(** C2, amended. [toggleBookingAutoMode] flips the flag and the label and
    touches nothing else: the utterance or recognizer in flight runs on.
    [toggleAutoMode] of the check-in loop, when it turns AutoMode off,
    cancels the speech and stops the listening session at once.  In both
    loops, while AutoMode is off the end of a job schedules nothing and
    sends nothing, and the end of a listening session leaves the input
    field as it is, for a manual send. *)
Theorem toggle_auto_mode_off (P : Platform) (r : nat) (w v : World) :
  (let w' := exec toggleBookingAutoMode w in
   Booking.isAutoMode (bookingState w') = negb (Booking.isAutoMode (bookingState w)) /\
   synth w' = synth w /\
   bookingHost w' = bookingHost w /\
   bookingRec w' = bookingRec w /\
   bookingUtterance w' = bookingUtterance w /\
   Booking.isSpeaking (bookingState w') = Booking.isSpeaking (bookingState w) /\
   Booking.isListening (bookingState w') = Booking.isListening (bookingState w) /\
   Booking.indicatorHidden (bookingView w') = Booking.indicatorHidden (bookingView w) /\
   Booking.inputValue (bookingView w') = Booking.inputValue (bookingView w)) /\
  (Checkin.isAutoMode (checkinState w) = true ->
   let w' := exec (toggleAutoMode P) w in
   returns (toggleAutoMode P) w = true /\
   Checkin.isAutoMode (checkinState w') = false /\
   Checkin.isSpeaking (checkinState w') = false /\
   Checkin.isListening (checkinState w') = false /\
   checkinRec w' = None /\
   checkinUtterance w' = None /\
   synth w' = (if hasSpeechSynthesis P then [] else synth w) /\
   Checkin.indicatorHidden (checkinView w') = true /\
   timers (checkinHost w') = timers (checkinHost w) /\
   requests (checkinHost w') = requests (checkinHost w) /\
   Checkin.inputValue (checkinView w') = Checkin.inputValue (checkinView w)) /\
  (Checkin.isAutoMode (checkinState v) = false ->
   (let v' := exec (checkinRec_onend r) v in
    timers (checkinHost v') = timers (checkinHost v) /\
    requests (checkinHost v') = requests (checkinHost v) /\
    Checkin.inputValue (checkinView v') = Checkin.inputValue (checkinView v) /\
    Checkin.isListening (checkinState v') = false) /\
   (let v' := exec checkinUtterance_onend v in
    timers (checkinHost v') = timers (checkinHost v) /\
    recognizers (checkinHost v') = recognizers (checkinHost v) /\
    Checkin.isSpeaking (checkinState v') = false)) /\
  (Booking.isAutoMode (bookingState v) = false ->
   (let v' := exec (bookingRec_onend r) v in
    timers (bookingHost v') = timers (bookingHost v) /\
    requests (bookingHost v') = requests (bookingHost v) /\
    Booking.inputValue (bookingView v') = Booking.inputValue (bookingView v) /\
    Booking.isListening (bookingState v') = false) /\
   (let v' := exec bookingUtterance_onend v in
    timers (bookingHost v') = timers (bookingHost v) /\
    recognizers (bookingHost v') = recognizers (bookingHost v) /\
    Booking.isSpeaking (bookingState v') = false)).
Proof.
  platform P. world w. world v.
  split; [|split; [|split]].
  - js. cases; repeat split; reflexivity.
  - simpl. intros ->. js. cases; repeat split; reflexivity.
  - simpl. intros ->. js. cases; repeat split; reflexivity.
  - simpl. intros ->. js. cases; repeat split; reflexivity.
Qed.

Lemma toggle_auto_mode_off_witness :
  Checkin.isAutoMode (checkinState checkin_listening) = true /\
  checkinRec (exec (toggleAutoMode full_browser) checkin_listening) = None /\
  Booking.isAutoMode
    (bookingState (exec toggleBookingAutoMode booking_listening)) = false /\
  timers (bookingHost (exec (bookingRec_onend 0)
                            (exec toggleBookingAutoMode booking_listening))) = [].
Proof.
  pose proof (toggle_auto_mode_off full_browser 0 checkin_listening
                (exec toggleBookingAutoMode booking_listening)) as (_ & Hck & _ & Hbk).
  split; [reflexivity|]. split; [apply Hck; reflexivity|].
  split; [reflexivity|].
  destruct (Hbk eq_refl) as [(Ht & _) _]. exact Ht.
Defined.

(** ** Unsupported speech engines *)

(** C8 as stated fails.  Without speech synthesis the check-in loop's
    speak request changes nothing at all: no status message reports the
    condition.  Without speech recognition the booking loop does write a
    status message, but it goes on scheduling a listening attempt after
    every utterance. *)
Lemma unsupported_engine_not_reported :
  (let w := run no_synthesis
              [ CheckinSessionCreated (Some 1) (Some 7) "Hello, I am Aria." false ]
              page_loaded in
   checkinSpeakThenListen no_synthesis "How are you?" w = (Normal tt, w) /\
   Checkin.statusText (checkinView w) = "" /\
   Checkin.indicatorText (checkinView w) = "" /\
   alerts w = []) /\
  (let w := run no_recognition
              [ BookingSessionCreated (Some 1) (Some 7) "English" "en" "Welcome to MedBridge.";
                UtteranceStarts BookingLoop 0;
                UtteranceEnds BookingLoop 0;
                TimerFires BookingLoop 0 ]
              page_loaded in
   let w' := run no_recognition
               [ UserTypes BookingLoop "tomorrow";
                 UserPressesEnter BookingLoop;
                 BookingRequestSettles 0
                   (Fulfilled (MkBookingReply "Which doctor?" "collecting" "" [] false "" "" ""));
                 UtteranceStarts BookingLoop 1;
                 UtteranceEnds BookingLoop 1 ]
               w in
   Booking.statusText (bookingView w) = "Voice not supported in this browser." /\
   Booking.isAutoMode (bookingState w') = true /\
   timers (bookingHost w') = [(StartListening, 400)]).
Proof. vm_compute. repeat split; reflexivity. Qed.

(** C8, amended. On a platform without speech synthesis
    [checkinSpeakThenListen] returns at once and changes nothing, and
    [bookingSpeakThenListen] sets the status to Ready and, with AutoMode
    on, still schedules listening after 400 ms.  On a platform without
    speech recognition [startCheckinListening] returns at once and changes
    nothing, and [startBookingListening] writes the status message
    "Voice not supported in this browser." and changes nothing else.  None
    of them throws, and none changes AutoMode. *)
Theorem engine_unsupported (P : Platform) (text : string) (w : World) :
  (hasSpeechSynthesis P = false ->
   checkinSpeakThenListen P text w = (Normal tt, w)) /\
  (hasSpeechRecognition P = false ->
   startCheckinListening P w = (Normal tt, w)) /\
  (hasSpeechRecognition P = false ->
   startBookingListening P w =
     (Normal tt,
      upd_bookingView
        (Booking.set_statusText "Voice not supported in this browser.") w)) /\
  (hasSpeechSynthesis P = false ->
   let w' := exec (bookingSpeakThenListen P text) w in
   returns (bookingSpeakThenListen P text) w = true /\
   Booking.statusText (bookingView w') = "Ready" /\
   timers (bookingHost w') =
     (timers (bookingHost w) ++
      if Booking.isAutoMode (bookingState w) then [(StartListening, 400)] else [])%list /\
   Booking.isAutoMode (bookingState w') = Booking.isAutoMode (bookingState w) /\
   synth w' = synth w /\
   bookingUtterance w' = bookingUtterance w /\
   Booking.messages (bookingView w') = Booking.messages (bookingView w)).
Proof.
  platform P. world w. simpl.
  split; [|split; [|split]]; intros ->.
  - reflexivity.
  - reflexivity.
  - reflexivity.
  - js. cases; repeat split; try reflexivity; rewrite ?app_nil_r; reflexivity.
Qed.

Lemma engine_unsupported_witness :
  hasSpeechSynthesis no_synthesis = false /\
  hasSpeechRecognition no_recognition = false /\
  checkinSpeakThenListen no_synthesis "Hello" page_loaded = (Normal tt, page_loaded) /\
  startCheckinListening no_recognition checkin_speaking = (Normal tt, checkin_speaking) /\
  Booking.statusText
    (bookingView (exec (startBookingListening no_recognition) page_loaded))
    = "Voice not supported in this browser.".
Proof.
  split; [reflexivity|]. split; [reflexivity|]. split; [|split].
  - exact (proj1 (engine_unsupported no_synthesis "Hello" page_loaded) eq_refl).
  - exact (proj1 (proj2 (engine_unsupported no_recognition "" checkin_speaking)) eq_refl).
  - pose proof (proj1 (proj2 (proj2 (engine_unsupported no_recognition "" page_loaded)))
                  eq_refl) as H.
    unfold exec. rewrite H. reflexivity.
Defined.


(** ** The final transcript of a listening session *)

Lemma gather_finals (rs : list SpeechResult) (final interim : string) :
  fst (gather rs final interim) = final ++ finals rs.
Proof.
  revert final interim. induction rs as [|x rs IH]; intros final interim; simpl.
  - rewrite append_empty_r. reflexivity.
  - destruct (isFinal x); rewrite IH; [|reflexivity].
    rewrite append_assoc. reflexivity.
Qed.

Lemma final_of_altered (s : string) (r : nat) (l : list Recognizer) :
  r < length l ->
  match alter (with_final s) r l !! r with
  | Some x => finalTranscript x
  | None => ""
  end = s.
Proof.
  intros Hr. rewrite list_lookup_alter_eq.
  destruct (lookup_lt_is_Some_2 l r Hr) as [x ->]. destruct x. reflexivity.
Qed.

(** A result event leaves in [finalTranscript] the finals it reports, and
    nothing of what earlier events reported. *)
Lemma result_event_rebuilds_final (P : Platform) (o : Loop) (r : nat)
    (e : ResultEvent) (w : World) :
  r < length (recognizers (host o w)) ->
  final_of o r (step P w (RecognitionResult o r e)) = finals (reported e) /\
  length (recognizers (host o (step P w (RecognitionResult o r e)))) =
    length (recognizers (host o w)).
Proof.
  destruct e as [i rs].
  pose proof (gather_finals (drop i rs) "" "") as Hg.
  destruct o; world w; simpl; intros Hr; js;
    destruct (gather (drop i rs) "" "") as [final interim];
    simpl in Hg; subst final; js;
    (split; [apply final_of_altered; exact Hr | apply length_alter]).
Qed.

(** The end of the session leaves [finalTranscript] alone. *)
Lemma session_end_keeps_final (P : Platform) (o : Loop) (r : nat) (w : World) :
  final_of o r (step P w (RecognitionEnds o r)) = final_of o r w.
Proof. destruct o; world w; js; cases; congruence. Qed.

Lemma last_finals_cons (before : string) (e : ResultEvent) (session : list ResultEvent) :
  last_finals before (e :: session) = last_finals (finals (reported e)) session.
Proof.
  unfold last_finals. rewrite last_cons. destruct (last session); reflexivity.
Qed.

Lemma deliver_final (P : Platform) (o : Loop) (r : nat) (session : list ResultEvent) :
  forall w, r < length (recognizers (host o w)) ->
  final_of o r (deliver P o r session w) = last_finals (final_of o r w) session.
Proof.
  induction session as [|e session IH]; intros w Hr; [reflexivity|].
  destruct (result_event_rebuilds_final P o r e w Hr) as [Hf Hl].
  change (deliver P o r (e :: session) w)
    with (deliver P o r session (step P w (RecognitionResult o r e))).
  rewrite IH by (rewrite Hl; exact Hr).
  rewrite Hf, last_finals_cons. reflexivity.
Qed.

Lemma last_finals_nonempty (a b : string) (e : ResultEvent) (session : list ResultEvent) :
  last_finals a (e :: session) = last_finals b (e :: session).
Proof.
  unfold last_finals. destruct (last (e :: session)) eqn:E; [reflexivity|].
  apply last_None in E. discriminate.
Qed.

Lemma interim_only_no_finals (e : ResultEvent) :
  interim_only e = true -> finals (reported e) = "".
Proof.
  unfold interim_only. induction (reported e) as [|x rs IH]; [reflexivity|].
  simpl. destruct (isFinal x); [discriminate|]. exact IH.
Qed.

(** On a single-shot session the finals of the last result event are all
    the finals of the session. *)
Lemma single_shot_buffer (session : list ResultEvent) :
  single_shot session = true ->
  last_finals "" session = spec_finalTranscriptBuffer session.
Proof.
  induction session as [|e session IH]; [reflexivity|].
  destruct session as [|e' session].
  - intros _. unfold last_finals. simpl. rewrite append_empty_r. reflexivity.
  - cbn [single_shot]. intros H. apply andb_prop in H. destruct H as [He Hs].
    rewrite last_finals_cons, (last_finals_nonempty _ ""), (IH Hs).
    cbn [spec_finalTranscriptBuffer]. rewrite (interim_only_no_finals e He).
    reflexivity.
Qed.

(** The recognizer a start of listening creates: it is the last of the
    list, not continuous, and its [finalTranscript] is empty. *)
Lemma start_listening_fresh (P : Platform) (w : World) :
  hasSpeechRecognition P = true ->
  (Checkin.isListening (checkinState w) = false ->
   let r := length (recognizers (checkinHost w)) in
   let w' := exec (startCheckinListening P) w in
   checkinRec w' = Some r /\
   final_of CheckinLoop r w' = "" /\
   continuous <$> recognizers (checkinHost w') !! r = Some false /\
   r < length (recognizers (checkinHost w'))) /\
  (Booking.isListening (bookingState w) = false ->
   let r := length (recognizers (bookingHost w)) in
   let w' := exec (startBookingListening P) w in
   bookingRec w' = Some r /\
   final_of BookingLoop r w' = "" /\
   continuous <$> recognizers (bookingHost w') !! r = Some false /\
   r < length (recognizers (bookingHost w'))).
Proof.
  platform P. world w. simpl. intros ->.
  split; intros ->; js; cases_new; repeat split; try reflexivity;
    rewrite ?length_app, ?length_alter; simpl; lia.
Qed.

(** C7. [finalTranscript] is empty when a listening session starts, and
    it never holds interim text: after every result event, and after the
    end of the session, it is the concatenation, in order, of the segments
    marked final among those the last result event reported.  The
    recognizers of both loops are not continuous, so the engine delivers
    them single-shot sessions, the one final result coming last; after
    every session the engine may deliver to them [finalTranscript] is the
    concatenation, in arrival order, of exactly the segments the engine
    marked final during it. *)
Theorem final_transcript_fidelity (P : Platform) (session : list ResultEvent) (w : World) :
  (forall o r, r < length (recognizers (host o w)) ->
   final_of o r (deliver P o r session w) = last_finals (final_of o r w) session /\
   final_of o r (session_over P o r session w) = last_finals (final_of o r w) session) /\
  (hasSpeechRecognition P = true ->
   Checkin.isListening (checkinState w) = false ->
   let r := length (recognizers (checkinHost w)) in
   let w' := exec (startCheckinListening P) w in
   checkinRec w' = Some r /\
   final_of CheckinLoop r w' = "" /\
   continuous <$> recognizers (checkinHost w') !! r = Some false /\
   (forall x, recognizers (checkinHost w') !! r = Some x ->
    engine_delivers x session = true ->
    final_of CheckinLoop r (session_over P CheckinLoop r session w')
      = spec_finalTranscriptBuffer session)) /\
  (hasSpeechRecognition P = true ->
   Booking.isListening (bookingState w) = false ->
   let r := length (recognizers (bookingHost w)) in
   let w' := exec (startBookingListening P) w in
   bookingRec w' = Some r /\
   final_of BookingLoop r w' = "" /\
   continuous <$> recognizers (bookingHost w') !! r = Some false /\
   (forall x, recognizers (bookingHost w') !! r = Some x ->
    engine_delivers x session = true ->
    final_of BookingLoop r (session_over P BookingLoop r session w')
      = spec_finalTranscriptBuffer session)).
Proof.
  assert (Hover : forall o r v, r < length (recognizers (host o v)) ->
            final_of o r (session_over P o r session v)
              = last_finals (final_of o r v) session).
  { intros o r v Hr. unfold session_over.
    rewrite session_end_keeps_final. apply deliver_final, Hr. }
  split; [|split].
  - intros o r Hr. split; [apply deliver_final, Hr | apply Hover, Hr].
  - intros HP Hl.
    destruct (proj1 (start_listening_fresh P w HP) Hl) as (Hrec & Hfinal & Hcont & Hr).
    cbv zeta. repeat (split; [assumption|]). intros x Hx Hshot.
    rewrite Hx in Hcont. injection Hcont as Hcont.
    unfold engine_delivers in Hshot. rewrite Hcont in Hshot.
    rewrite (Hover CheckinLoop _ _ Hr), Hfinal. apply single_shot_buffer, Hshot.
  - intros HP Hl.
    destruct (proj2 (start_listening_fresh P w HP) Hl) as (Hrec & Hfinal & Hcont & Hr).
    cbv zeta. repeat (split; [assumption|]). intros x Hx Hshot.
    rewrite Hx in Hcont. injection Hcont as Hcont.
    unfold engine_delivers in Hshot. rewrite Hcont in Hshot.
    rewrite (Hover BookingLoop _ _ Hr), Hfinal. apply single_shot_buffer, Hshot.
Qed.

Lemma final_transcript_fidelity_witness :
  let w := step full_browser checkin_speaking (UtteranceEnds CheckinLoop 0) in
  let x := MkRecognizer "en-SG" false true "" true false in
  hasSpeechRecognition full_browser = true /\
  Checkin.isListening (checkinState w) = false /\
  recognizers (checkinHost (exec (startCheckinListening full_browser) w)) !! 0 = Some x /\
  engine_delivers x one_final_segment = true /\
  spec_finalTranscriptBuffer one_final_segment = "I have a headache" /\
  final_of CheckinLoop 0
    (session_over full_browser CheckinLoop 0 one_final_segment
       (exec (startCheckinListening full_browser) w))
    = "I have a headache" /\
  0 < length (recognizers (host CheckinLoop checkin_listening)) /\
  final_of CheckinLoop 0
    (deliver full_browser CheckinLoop 0 [MkResultEvent 0 [MkResult "I have" false]]
       checkin_listening) = "" /\
  Booking.isListening (bookingState booking_speaking) = false /\
  recognizers (bookingHost (exec (startBookingListening full_browser) booking_speaking))
    !! 0 = Some x /\
  final_of BookingLoop 0
    (session_over full_browser BookingLoop 0 one_final_segment
       (exec (startBookingListening full_browser) booking_speaking))
    = "I have a headache".
Proof.
  pose proof (final_transcript_fidelity full_browser one_final_segment
                (step full_browser checkin_speaking (UtteranceEnds CheckinLoop 0)))
    as (_ & Hck & _).
  pose proof (final_transcript_fidelity full_browser one_final_segment booking_speaking)
    as (_ & _ & Hbk).
  pose proof (final_transcript_fidelity full_browser
                [MkResultEvent 0 [MkResult "I have" false]] checkin_listening)
    as (Hany & _).
  assert (Hr : 0 < length (recognizers (host CheckinLoop checkin_listening)))
    by (vm_compute; lia).
  split; [reflexivity|]. split; [reflexivity|]. split; [reflexivity|].
  split; [reflexivity|]. split; [reflexivity|]. split.
  - destruct (Hck eq_refl eq_refl) as (_ & _ & _ & Hshot).
    exact (Hshot (MkRecognizer "en-SG" false true "" true false) eq_refl eq_refl).
  - split; [exact Hr|]. split; [rewrite (proj1 (Hany CheckinLoop 0 Hr)); reflexivity|].
    split; [reflexivity|]. split; [reflexivity|].
    destruct (Hbk eq_refl eq_refl) as (_ & _ & _ & Hshot).
    exact (Hshot (MkRecognizer "en-SG" false true "" true false) eq_refl eq_refl).
Defined.

(** ** Isolation of the two loops *)

(** C3 as stated fails: the two loops queue their utterances in the one
    [window.speechSynthesis], and [speechSynthesis.cancel()] empties it.
    The booking session is created while the user is in the check-in chat
    and its welcome message is being spoken; the user turns the AutoMode
    of the check-in loop off, [stopCheckinSpeaking] cancels the queue, and
    the utterance of the booking loop is gone.  When the engine reports
    that to the utterance, the booking loop's [isSpeaking] changes too. *)
Lemma checkin_stop_cancels_booking_speech :
  let w := booking_speaks_behind_checkin in
  let w' := step full_browser w (UserTogglesAutoMode CheckinLoop) in
  let w'' := step full_browser w' (UtteranceFails BookingLoop 1) in
  currentView w = "checkin" /\
  Checkin.step (checkinView w) = "checkin-chat" /\
  Booking.isSpeaking (bookingState w) = true /\
  utterances_of BookingLoop w =
    [MkUtterance 1 BookingLoop "Welcome to MedBridge." "en-SG"] /\
  utterances_of BookingLoop w' = [] /\
  utterances_of BookingLoop w' <> utterances_of BookingLoop w /\
  Booking.isSpeaking (bookingState w'') = false.
Proof. vm_compute. repeat split; try reflexivity; discriminate. Qed.

(** One event of a loop changes nothing of what belongs to the other, the
    marking of the active step of the booking view aside. *)
Lemma event_frames_other_loop (P : Platform) (w : World) (ev : Event) :
  (loop_of ev = Some CheckinLoop -> bookingSide (step P w ev) = bookingSide w) /\
  (loop_of ev = Some BookingLoop -> checkinSide (step P w ev) = checkinSide w).
Proof.
  platform P. world w.
  split; intros H;
    destruct ev as [[] ?|[]|[]|[]|[]|[]| ? | | ? ? ? ? | ? ? ? ? ?
                   | ? [[? ?]|] | ? [[? ? ? ? ? ? ? ?]|]
                   | [] ? | [] ? | [] ? | [] ? | [] ? ? | [] ? | [] ? ? | [] ? ];
    try discriminate H; clear H; reduce; cases; reflexivity.
Qed.

(** C3, amended. Whatever sequence of events of one loop occurs (its
    user actions, its timers, the events of its utterances and
    recognizers, the replies to its requests), nothing that belongs to the
    other loop changes: not its state object with the [isSpeaking],
    [isListening] and [isAutoMode] flags, not its recognizer and utterance
    handles, not its page elements, not its recognizers, timers and
    requests.  The queue of the synthesis engine is not part of this: it
    is shared, and a stop in one loop cancels the utterance of the other.
    Nor is the marking of the active step of the booking view, which the
    comparison leaves out. *)
Theorem loops_share_only_the_synthesis_queue (P : Platform) (evs : list Event) (w : World) :
  (Forall (fun ev => loop_of ev = Some CheckinLoop) evs ->
   bookingSide (run P evs w) = bookingSide w) /\
  (Forall (fun ev => loop_of ev = Some BookingLoop) evs ->
   checkinSide (run P evs w) = checkinSide w).
Proof.
  revert w. induction evs as [|ev evs IH]; intros w; [split; reflexivity|].
  split; intros H; inversion H as [|? ? Hev Hevs]; subst;
    change (run P (ev :: evs) w) with (run P evs (step P w ev)).
  - rewrite (proj1 (IH _) Hevs). apply event_frames_other_loop, Hev.
  - rewrite (proj2 (IH _) Hevs). apply event_frames_other_loop, Hev.
Qed.

Lemma loops_share_only_the_synthesis_queue_witness :
  Forall (fun ev => loop_of ev = Some CheckinLoop)
    [UserTogglesAutoMode CheckinLoop; UserTogglesVoice CheckinLoop] /\
  bookingSide (run full_browser
                 [UserTogglesAutoMode CheckinLoop; UserTogglesVoice CheckinLoop]
                 booking_speaks_behind_checkin)
    = bookingSide booking_speaks_behind_checkin.
Proof.
  assert (H : Forall (fun ev => loop_of ev = Some CheckinLoop)
                [UserTogglesAutoMode CheckinLoop; UserTogglesVoice CheckinLoop])
    by (repeat constructor).
  split; [exact H|].
  exact (proj1 (loops_share_only_the_synthesis_queue full_browser _
                  booking_speaks_behind_checkin) H).
Defined.


(** * Further properties of the loops *)

(** Case analysis as [cases], a rewriting step [tac] being tried first. *)
Ltac cases_with tac := repeat (first [tac | case_one]; js).

(** ** Recognition errors *)

(** X1. A recognition error ([rec.onerror]) returns the loop to rest and
    retries nothing: the listening flag is reset and the indicators are
    cleared, no timer is scheduled, no request is sent, AutoMode stays as
    it was.  An alert is shown exactly when the error is [not-allowed],
    and then exactly one.  The check-in loop releases its recognizer
    handle; the booking loop keeps [bookingRec] and its status text. *)
Theorem recognition_error_parks_loop (error : string) (w : World) :
  (let w' := exec (checkinRec_onerror error) w in
   returns (checkinRec_onerror error) w = true /\
   alerts w' =
     (alerts w ++
      if String.eqb error "not-allowed"
      then ["Microphone access was denied. Please allow microphone access to use voice input."]
      else [])%list /\
   Checkin.isListening (checkinState w') = false /\
   checkinRec w' = None /\
   Checkin.indicatorHidden (checkinView w') = true /\
   Checkin.micRecording (checkinView w') = false /\
   Checkin.voiceStatusActive (checkinView w') = false /\
   checkinHost w' = checkinHost w /\
   Checkin.isAutoMode (checkinState w') = Checkin.isAutoMode (checkinState w) /\
   Checkin.isSpeaking (checkinState w') = Checkin.isSpeaking (checkinState w) /\
   synth w' = synth w) /\
  (let w' := exec (bookingRec_onerror error) w in
   returns (bookingRec_onerror error) w = true /\
   alerts w' =
     (alerts w ++
      if String.eqb error "not-allowed"
      then ["Microphone access denied. Please allow microphone access."]
      else [])%list /\
   Booking.isListening (bookingState w') = false /\
   Booking.indicatorHidden (bookingView w') = true /\
   Booking.micActive (bookingView w') = false /\
   bookingRec w' = bookingRec w /\
   Booking.statusText (bookingView w') = Booking.statusText (bookingView w) /\
   bookingHost w' = bookingHost w /\
   Booking.isAutoMode (bookingState w') = Booking.isAutoMode (bookingState w) /\
   Booking.isSpeaking (bookingState w') = Booking.isSpeaking (bookingState w) /\
   synth w' = synth w).
Proof.
  world w. split; js; cases; repeat split; try reflexivity;
    rewrite ?app_nil_r; reflexivity.
Qed.

(** ** Leaving a view *)

(** X2. [navigateTo] to a view of the page tears both loops down
    whatever their state and whatever the platform, also one whose
    [rec.stop()] throws: it returns normally, both speaking and both
    listening flags are reset, both recognizer handles and the check-in
    utterance handle are released, the indicators are hidden and the queue
    of the synthesis engine is emptied.  It leaves the session ids,
    AutoMode, the pending timers and the requests as they were.  For a
    view the page lacks it throws before any of this: no stop runs and
    [state.currentView] keeps its value (the marking of the views, which
    is lost by then, is not part of the world). *)
Theorem navigation_tears_down_both_loops (P : Platform) (view : string) (w : World) :
  (hasView P view = true ->
   let w' := exec (navigateTo P view) w in
   returns (navigateTo P view) w = true /\
   currentView w' = view /\
   Checkin.isSpeaking (checkinState w') = false /\
   Checkin.isListening (checkinState w') = false /\
   checkinRec w' = None /\
   checkinUtterance w' = None /\
   Checkin.indicatorHidden (checkinView w') = true /\
   Booking.isSpeaking (bookingState w') = false /\
   Booking.isListening (bookingState w') = false /\
   bookingRec w' = None /\
   Booking.indicatorHidden (bookingView w') = true /\
   synth w' = (if hasSpeechSynthesis P then [] else synth w) /\
   Checkin.sessionId (checkinState w') = Checkin.sessionId (checkinState w) /\
   Booking.bookingSessionId (bookingState w') = Booking.bookingSessionId (bookingState w) /\
   Checkin.isAutoMode (checkinState w') = Checkin.isAutoMode (checkinState w) /\
   Booking.isAutoMode (bookingState w') = Booking.isAutoMode (bookingState w) /\
   timers (checkinHost w') = timers (checkinHost w) /\
   timers (bookingHost w') = timers (bookingHost w) /\
   requests (checkinHost w') = requests (checkinHost w) /\
   requests (bookingHost w') = requests (bookingHost w)) /\
  (hasView P view = false ->
   returns (navigateTo P view) w = false /\
   exec (navigateTo P view) w = w).
Proof.
  platform P. world w. simpl. split; intros Hview.
  - js. rewrite Hview. js. cases; repeat split; reflexivity.
  - js. rewrite Hview. split; reflexivity.
Qed.

Lemma navigation_tears_down_both_loops_witness :
  hasView full_browser "doctor" = true /\
  checkinRec (exec (navigateTo full_browser "doctor") checkin_listening) = None /\
  synth (exec (navigateTo full_browser "doctor") booking_speaking) = [] /\
  hasView full_browser "settings" = false /\
  exec (navigateTo full_browser "settings") checkin_listening = checkin_listening.
Proof.
  split; [reflexivity|].
  destruct (proj1 (navigation_tears_down_both_loops full_browser "doctor" checkin_listening)
              eq_refl) as (_ & _ & _ & _ & Hrec & _).
  destruct (proj1 (navigation_tears_down_both_loops full_browser "doctor" booking_speaking)
              eq_refl) as (_ & _ & _ & _ & _ & _ & _ & _ & _ & _ & _ & Hsynth & _).
  split; [exact Hrec|]. split; [exact Hsynth|]. split; [reflexivity|].
  exact (proj2 (proj2 (navigation_tears_down_both_loops full_browser "settings"
                         checkin_listening) eq_refl)).
Defined.

(** X3. The settle-delay callback survives the teardown: when the start
    of listening is pending and the user navigates to another view of the
    page, the callback still runs afterwards and, on a platform with
    speech recognition, puts the check-in loop into listening again. *)
Theorem pending_listen_survives_navigation (P : Platform) (view : string)
    (n ms : nat) (w : World) :
  hasView P view = true ->
  hasSpeechRecognition P = true ->
  timers (checkinHost w) !! n = Some (StartListening, ms) ->
  let w' := step P (exec (navigateTo P view) w) (TimerFires CheckinLoop n) in
  Checkin.isListening (checkinState w') = true /\
  checkinRec w' = Some (length (recognizers (checkinHost w))).
Proof.
  platform P. world w. simpl. intros Hview -> Hn. js. rewrite Hview. js.
  repeat (first [ rewrite Hn | rewrite alter_snoc | rewrite alter_snoc_alter
                | rewrite lookup_snoc | rewrite lookup_snoc_alter
                | rewrite length_alter | case_one ]; js).
  all: split; reflexivity.
Qed.

Lemma pending_listen_survives_navigation_witness :
  let w := run full_browser [UtteranceEnds CheckinLoop 0] checkin_speaking in
  hasView full_browser "home" = true /\
  hasSpeechRecognition full_browser = true /\
  timers (checkinHost w) !! 0 = Some (StartListening, 400) /\
  Checkin.isListening
    (checkinState (step full_browser (exec (navigateTo full_browser "home") w)
                        (TimerFires CheckinLoop 0))) = true.
Proof.
  split; [reflexivity|]. split; [reflexivity|]. split; [reflexivity|].
  exact (proj1 (pending_listen_survives_navigation full_browser "home" 0 400
                  (run full_browser [UtteranceEnds CheckinLoop 0] checkin_speaking)
                  eq_refl eq_refl eq_refl)).
Defined.

(** X4. After [backToCheckinSetup] the session id is cleared, so every
    later send is a no-op: a call of [sendCheckinMessage] with any
    argument, and the pending auto-submit callback of any recognizer,
    leave the world as it is.  [backToBookingSetup] keeps
    [bookingSessionId]: an auto-submit callback that was pending still
    sends its transcript to that session. *)
Theorem back_to_setup_and_pending_sends (P : Platform) (override : option string)
    (r : nat) (w : World) :
  (let w' := exec (backToCheckinSetup P) w in
   returns (backToCheckinSetup P) w = true /\
   Checkin.sessionId (checkinState w') = None /\
   Checkin.patientId (checkinState w') = None /\
   Checkin.step (checkinView w') = "checkin-setup" /\
   sendCheckinMessage override w' = (Normal tt, w') /\
   run_timer P CheckinLoop (SendTranscript r) w' = (Normal tt, w')) /\
  (let w' := exec (backToBookingSetup P) w in
   returns (backToBookingSetup P) w = true /\
   Booking.bookingSessionId (bookingState w') = Booking.bookingSessionId (bookingState w) /\
   Booking.step (bookingView w') = "booking-setup" /\
   (truthyId (Booking.bookingSessionId (bookingState w)) = true ->
    Str.truthy (Str.trim (final_of BookingLoop r w')) = true ->
    requests (bookingHost (exec (run_timer P BookingLoop (SendTranscript r)) w')) =
      (requests (bookingHost w) ++
       [MkRequest (Booking.bookingSessionId (bookingState w))
                  (Str.trim (final_of BookingLoop r w')) false])%list)).
Proof.
  platform P. world w. split.
  - js. cbv [truthyId]. js. cases; repeat split; reflexivity.
  - js. cbv [or_typed]. rewrite ?trim_idem.
    cases; repeat split; try reflexivity; intros Hid Hfin;
      rewrite ?Hid, ?Hfin; js; cases; try reflexivity; congruence.
Qed.

Lemma back_to_setup_and_pending_sends_witness :
  let w := run full_browser
             [ RecognitionResult BookingLoop 0
                 (MkResultEvent 0 [MkResult "tomorrow morning" true]);
               RecognitionEnds BookingLoop 0 ]
             booking_listening in
  let w' := exec (backToBookingSetup full_browser) w in
  truthyId (Booking.bookingSessionId (bookingState w)) = true /\
  Str.truthy (Str.trim (final_of BookingLoop 0 w')) = true /\
  requests (bookingHost (exec (run_timer full_browser BookingLoop (SendTranscript 0)) w')) =
    [MkRequest (Some 7) "tomorrow morning" false].
Proof.
  split; [reflexivity|]. split; [reflexivity|].
  exact (proj2 (proj2 (proj2 (proj2
           (back_to_setup_and_pending_sends full_browser None 0
              (run full_browser
                 [ RecognitionResult BookingLoop 0
                     (MkResultEvent 0 [MkResult "tomorrow morning" true]);
                   RecognitionEnds BookingLoop 0 ]
                 booking_listening))))) eq_refl eq_refl).
Defined.

(** ** Typed messages *)

(** X5. Pressing Enter on a non-empty input while a session is open sends
    the trimmed text once, whatever AutoMode is: one request and one user
    bubble are added (and, in the check-in view, one typing indicator),
    the input is emptied, the listening session is stopped and its handle
    released.  Speech that is running is not
    stopped, and no timer is scheduled. *)
Theorem typed_message_is_sent_once (P : Platform) (w : World) :
  (Str.truthy (Str.trim (Checkin.inputValue (checkinView w))) = true ->
   truthyId (Checkin.sessionId (checkinState w)) = true ->
   let text := Str.trim (Checkin.inputValue (checkinView w)) in
   let w' := exec (handleCheckinKey P) w in
   returns (handleCheckinKey P) w = true /\
   requests (checkinHost w') =
     (requests (checkinHost w) ++
      [MkRequest (Checkin.sessionId (checkinState w)) text false])%list /\
   Checkin.messages (checkinView w') =
     (Checkin.messages (checkinView w) ++ [(user, text)])%list /\
   Checkin.inputValue (checkinView w') = "" /\
   Checkin.typing (checkinView w') = S (Checkin.typing (checkinView w)) /\
   Checkin.sendDisabled (checkinView w') = true /\
   Checkin.isListening (checkinState w') = false /\
   checkinRec w' = None /\
   timers (checkinHost w') = timers (checkinHost w) /\
   Checkin.isSpeaking (checkinState w') = Checkin.isSpeaking (checkinState w) /\
   synth w' = synth w /\
   Checkin.isAutoMode (checkinState w') = Checkin.isAutoMode (checkinState w)) /\
  (Str.truthy (Str.trim (Booking.inputValue (bookingView w))) = true ->
   truthyId (Booking.bookingSessionId (bookingState w)) = true ->
   let text := Str.trim (Booking.inputValue (bookingView w)) in
   let w' := exec (handleBookingKey P) w in
   returns (handleBookingKey P) w = true /\
   requests (bookingHost w') =
     (requests (bookingHost w) ++
      [MkRequest (Booking.bookingSessionId (bookingState w)) text false])%list /\
   Booking.messages (bookingView w') =
     (Booking.messages (bookingView w) ++ [(user, text)])%list /\
   Booking.inputValue (bookingView w') = "" /\
   Booking.statusText (bookingView w') = "Processing…" /\
   Booking.isListening (bookingState w') = false /\
   bookingRec w' = None /\
   timers (bookingHost w') = timers (bookingHost w) /\
   Booking.isSpeaking (bookingState w') = Booking.isSpeaking (bookingState w) /\
   synth w' = synth w /\
   Booking.isAutoMode (bookingState w') = Booking.isAutoMode (bookingState w)).
Proof.
  platform P. world w. split; simpl; intros Htext Hid; js;
    cases_with ltac:(first [progress cbv [or_typed] | rewrite Htext | rewrite Hid]);
    repeat split; reflexivity.
Qed.

Lemma typed_message_is_sent_once_witness :
  let w := step full_browser checkin_listening (UserTypes CheckinLoop " I have a headache ") in
  Str.truthy (Str.trim (Checkin.inputValue (checkinView w))) = true /\
  truthyId (Checkin.sessionId (checkinState w)) = true /\
  requests (checkinHost (exec (handleCheckinKey full_browser) w)) =
    [MkRequest (Some 7) "I have a headache" false] /\
  checkinRec (exec (handleCheckinKey full_browser) w) = None.
Proof.
  split; [reflexivity|]. split; [reflexivity|].
  destruct (proj1 (typed_message_is_sent_once full_browser
                     (step full_browser checkin_listening
                        (UserTypes CheckinLoop " I have a headache ")))
              eq_refl eq_refl) as (_ & Hreq & _ & _ & _ & _ & _ & Hrec & _).
  split; [exact Hreq | exact Hrec].
Defined.

(** ** Replies *)

(** X6. When the reply to a check-in message arrives it is appended once
    as an assistant bubble, one typing indicator goes (one is left for
    every other message still awaiting its reply) and the buttons are
    enabled again; the request is settled and none is sent.  The reply
    is spoken exactly when AutoMode is on and the platform has speech
    synthesis: then it is the only utterance in the queue, in the
    language of the session, and the loop speaks and does not listen.
    Otherwise the queue and the flags stay as they were.  (The language
    code of the session is one the speak function finds a voice for
    without throwing.) *)
Theorem checkin_reply_is_appended_and_spoken (P : Platform) (n : nat)
    (data : CheckinReply) (w : World) :
  speakable P (Checkin.langCode (checkinState w)) (uttCount w) = true ->
  let spoken := Checkin.isAutoMode (checkinState w) && hasSpeechSynthesis P in
  let w' := step P w (CheckinRequestSettles n (Fulfilled data)) in
  Checkin.messages (checkinView w') =
    (Checkin.messages (checkinView w) ++ [(assistant, reply data)])%list /\
  requests (checkinHost w') = alter mark_settled n (requests (checkinHost w)) /\
  timers (checkinHost w') = timers (checkinHost w) /\
  Checkin.typing (checkinView w') = Nat.pred (Checkin.typing (checkinView w)) /\
  Checkin.sendDisabled (checkinView w') = false /\
  Checkin.sendToDoctorDisabled (checkinView w') = false /\
  bannerHidden w' = (if api_key_invalid data then false else bannerHidden w) /\
  synth w' =
    (if spoken
     then [MkUtterance (uttCount w) CheckinLoop (reply data)
             (speechLang P (Checkin.langCode (checkinState w)))]
     else synth w) /\
  Checkin.isSpeaking (checkinState w') =
    (if spoken then true else Checkin.isSpeaking (checkinState w)) /\
  Checkin.isListening (checkinState w') =
    (if spoken then false else Checkin.isListening (checkinState w)).
Proof.
  platform P. world w. destruct data as [text invalid].
  unfold speakable. simpl. js.
  cases; intros Hs; try discriminate Hs; try congruence; repeat split; reflexivity.
Qed.

Lemma checkin_reply_is_appended_and_spoken_witness :
  speakable full_browser (Checkin.langCode (checkinState checkin_awaiting_reply))
    (uttCount checkin_awaiting_reply) = true /\
  synth (step full_browser checkin_awaiting_reply
           (CheckinRequestSettles 0 (Fulfilled (MkCheckinReply "Since when?" false)))) =
    [MkUtterance 1 CheckinLoop "Since when?" "en-SG"].
Proof.
  split; [reflexivity|].
  destruct (checkin_reply_is_appended_and_spoken full_browser 0
              (MkCheckinReply "Since when?" false) checkin_awaiting_reply eq_refl)
    as (_ & _ & _ & _ & _ & _ & _ & Hsynth & _).
  exact Hsynth.
Defined.

(** X7. An ordinary reply of the booking backend (its state neither
    confirmed nor cancelled) is appended once as an assistant bubble and
    is spoken whatever AutoMode is: on a platform with speech synthesis
    it becomes the only utterance in the queue, and a listening session
    that is running is not stopped.  Without speech synthesis nothing is
    queued, and with AutoMode on listening is scheduled at once.  (The
    language code of the session is one the speak function finds a voice
    for without throwing.) *)
Theorem booking_reply_is_always_spoken (P : Platform) (n : nat)
    (data : BookingReply) (w : World) :
  state data <> "confirmed" ->
  state data <> "cancelled" ->
  speakable P (Booking.langCode (bookingState w)) (uttCount w) = true ->
  let w' := step P w (BookingRequestSettles n (Fulfilled data)) in
  Booking.messages (bookingView w') =
    (Booking.messages (bookingView w) ++ [(assistant, response_text data)])%list /\
  requests (bookingHost w') = alter mark_settled n (requests (bookingHost w)) /\
  synth w' =
    (if hasSpeechSynthesis P
     then [MkUtterance (uttCount w) BookingLoop (response_text data)
             (speechLang P (Booking.langCode (bookingState w)))]
     else synth w) /\
  timers (bookingHost w') =
    (timers (bookingHost w) ++
     if negb (hasSpeechSynthesis P) && Booking.isAutoMode (bookingState w)
     then [(StartListening, 400)] else [])%list /\
  Booking.isSpeaking (bookingState w') = false /\
  Booking.isListening (bookingState w') = Booking.isListening (bookingState w) /\
  bookingRec w' = bookingRec w /\
  Booking.isAutoMode (bookingState w') = Booking.isAutoMode (bookingState w).
Proof.
  intros Hc Hx. apply String.eqb_neq in Hc, Hx.
  platform P. world w. destruct data as [text st norm slots' conf ref date time].
  simpl in Hc, Hx. unfold speakable. simpl. js. rewrite Hc, Hx. js.
  cases; intros Hs; try discriminate Hs; try congruence; repeat split; try reflexivity;
    rewrite ?app_nil_r; reflexivity.
Qed.

Lemma booking_reply_is_always_spoken_witness :
  let data := MkBookingReply "Which doctor?" "collecting" "" [] false "" "" "" in
  let w := step full_browser booking_submitting (UserTogglesAutoMode BookingLoop) in
  state data <> "confirmed" /\
  state data <> "cancelled" /\
  speakable full_browser (Booking.langCode (bookingState w)) (uttCount w) = true /\
  Booking.isAutoMode (bookingState w) = false /\
  synth (step full_browser w (BookingRequestSettles 0 (Fulfilled data))) =
    [MkUtterance 1 BookingLoop "Which doctor?" "en-SG"].
Proof.
  assert (Hc : "collecting" <> "confirmed") by discriminate.
  assert (Hx : "collecting" <> "cancelled") by discriminate.
  split; [exact Hc|]. split; [exact Hx|]. split; [reflexivity|]. split; [reflexivity|].
  exact (proj1 (proj2 (proj2
           (booking_reply_is_always_spoken full_browser 0
              (MkBookingReply "Which doctor?" "collecting" "" [] false "" "" "")
              (step full_browser booking_submitting (UserTogglesAutoMode BookingLoop))
              Hc Hx eq_refl)))).
Defined.

(** X8. The two terminal replies of the booking backend.  A confirmed
    reply stops the listening session, shows the confirmation step with
    the booking reference and, on a platform with speech synthesis, queues
    the confirmation message as the only utterance.  A cancelled reply
    appends the cancellation bubble after the reply and speaks nothing:
    the queue, the timers and the flags stay as they were.  (For the
    confirmed reply the language code of the session is one the speak
    function finds a voice for without throwing.) *)
Theorem booking_terminal_replies (P : Platform) (n : nat) (data : BookingReply) (w : World) :
  (state data = "confirmed" ->
   speakable P (Booking.langCode (bookingState w)) (uttCount w) = true ->
   let w' := step P w (BookingRequestSettles n (Fulfilled data)) in
   Booking.messages (bookingView w') =
     (Booking.messages (bookingView w) ++ [(assistant, response_text data)])%list /\
   Booking.step (bookingView w') = "booking-confirmed" /\
   Booking.confirmedRef (bookingView w') = booking_ref data /\
   Booking.isListening (bookingState w') = false /\
   bookingRec w' = None /\
   synth w' =
     (if hasSpeechSynthesis P
      then [MkUtterance (uttCount w) BookingLoop
              ("Your appointment has been confirmed. Your booking reference is "
               ++ booking_ref data ++ ". See you at " ++ slot_time data
               ++ " on " ++ slot_date data ++ ".")
              (speechLang P (Booking.langCode (bookingState w)))]
      else synth w)) /\
  (state data = "cancelled" ->
   let w' := step P w (BookingRequestSettles n (Fulfilled data)) in
   Booking.messages (bookingView w') =
     (Booking.messages (bookingView w) ++
      [(assistant, response_text data);
       (assistant, "Your booking has been cancelled. Feel free to start a new one.")])%list /\
   synth w' = synth w /\
   timers (bookingHost w') = timers (bookingHost w) /\
   bookingRec w' = bookingRec w /\
   Booking.isSpeaking (bookingState w') = Booking.isSpeaking (bookingState w) /\
   Booking.isListening (bookingState w') = Booking.isListening (bookingState w)).
Proof.
  platform P. world w. destruct data as [text st norm slots' conf ref date time].
  unfold speakable.
  split; simpl; intros ->; js; cases; try intros Hs; try discriminate Hs;
    try congruence; repeat split; try reflexivity.
  all: rewrite <- ?app_assoc; reflexivity.
Qed.

Lemma booking_terminal_replies_witness :
  let data := MkBookingReply "Booked." "confirmed" "" [] false "MB-42" "12 May" "09:30" in
  state data = "confirmed" /\
  speakable full_browser (Booking.langCode (bookingState booking_submitting))
    (uttCount booking_submitting) = true /\
  Booking.step
    (bookingView (step full_browser booking_submitting
                    (BookingRequestSettles 0 (Fulfilled data)))) = "booking-confirmed" /\
  synth (step full_browser booking_submitting (BookingRequestSettles 0 (Fulfilled data))) =
    [MkUtterance 1 BookingLoop
       "Your appointment has been confirmed. Your booking reference is MB-42. See you at 09:30 on 12 May."
       "en-SG"].
Proof.
  split; [reflexivity|]. split; [reflexivity|].
  destruct (proj1 (booking_terminal_replies full_browser 0
                     (MkBookingReply "Booked." "confirmed" "" [] false "MB-42" "12 May" "09:30")
                     booking_submitting) eq_refl eq_refl)
    as (_ & Hstep & _ & _ & _ & Hsynth).
  split; [exact Hstep | exact Hsynth].
Defined.

(** ** The state card of the booking view *)

(** X9. [renderBookingStateCard] resets the slot selection on every
    reply: the selected slot becomes the first slot offered, or none when
    no slot is offered.  The card is hidden when the reply has neither a
    normalized input nor slots, even if it asks for confirmation; it is
    shown when there are slots, or a confirmation is asked for and a
    normalized input is present; with a normalized input alone it keeps
    the visibility it had.  The voice state is not touched. *)
Theorem state_card_after_reply (data : BookingReply) (w : World) :
  let w' := exec (renderBookingStateCard data) w in
  let no_input := negb (Str.truthy (normalized_input data)) in
  let no_slots := match available_slots data with [] => true | _ => false end in
  returns (renderBookingStateCard data) w = true /\
  Booking.selectedSlotId (bookingState w') = head (available_slots data) /\
  Booking.slots (bookingView w') = available_slots data /\
  Booking.normalizedHidden (bookingView w') = no_input /\
  Booking.confirmHidden (bookingView w') = negb (requires_confirmation data) /\
  Booking.cardHidden (bookingView w') =
    (if no_input && no_slots then true
     else if negb no_slots || requires_confirmation data then false
     else Booking.cardHidden (bookingView w)) /\
  Booking.isSpeaking (bookingState w') = Booking.isSpeaking (bookingState w) /\
  Booking.isListening (bookingState w') = Booking.isListening (bookingState w) /\
  Booking.isAutoMode (bookingState w') = Booking.isAutoMode (bookingState w) /\
  bookingRec w' = bookingRec w /\
  bookingHost w' = bookingHost w /\
  synth w' = synth w.
Proof.
  world w. destruct data as [text st norm slots' conf ref date time].
  js. cbv [Str.truthy]. js. cases; repeat split; reflexivity.
Qed.

(** ** The microphone button *)

(** X10. The microphone button of the check-in view is a toggle: after
    [toggleCheckinVoice] the loop listens exactly when it did not listen
    before and the platform has speech recognition.  Tapping it while the
    loop listens leaves running speech alone; tapping it otherwise stops
    the speech first.  The button itself schedules nothing and sends
    nothing.  In the booking view, tapping while the loop listens stops
    the session and releases the handle; tapping otherwise installs a new
    recognizer on a platform with speech recognition, and running speech
    is not stopped. *)
Theorem microphone_button (P : Platform) (w : World) :
  (let w' := exec (toggleCheckinVoice P) w in
   returns (toggleCheckinVoice P) w = true /\
   Checkin.isListening (checkinState w') =
     negb (Checkin.isListening (checkinState w)) && hasSpeechRecognition P /\
   Checkin.isSpeaking (checkinState w') =
     Checkin.isListening (checkinState w) && Checkin.isSpeaking (checkinState w) /\
   timers (checkinHost w') = timers (checkinHost w) /\
   requests (checkinHost w') = requests (checkinHost w) /\
   Checkin.inputValue (checkinView w') = Checkin.inputValue (checkinView w)) /\
  (let w' := exec (toggleBookingVoice P) w in
   bookingRec w' =
     (if Booking.isListening (bookingState w) then None
      else if hasSpeechRecognition P
           then Some (length (recognizers (bookingHost w)))
           else bookingRec w) /\
   Booking.isListening (bookingState w') = false /\
   Booking.isSpeaking (bookingState w') = Booking.isSpeaking (bookingState w) /\
   synth w' = synth w /\
   timers (bookingHost w') = timers (bookingHost w) /\
   requests (bookingHost w') = requests (bookingHost w)).
Proof.
  platform P. world w. split; js; cases_new; repeat split; reflexivity.
Qed.

(** ** The start of a session *)

(** X11. Starting a check-in always turns AutoMode on, whatever it was,
    and begins with a fresh transcript: the greeting is the only bubble,
    the input is empty, the chat step is shown, and on a platform with
    speech synthesis the greeting is the only utterance in the queue, in
    the speech language of the chosen language code.  Starting a booking
    leaves AutoMode as it was and speaks the welcome message whatever
    AutoMode is.  (The language code is one the speak functions find a
    voice for without throwing.) *)
Theorem session_start (P : Platform) (patient session : option nat)
    (language code greeting : string) (key_invalid : bool) (w : World) :
  speakable P code (uttCount w) = true ->
  (let w' := exec (handleCheckinSetup language code ;;
                   handleCheckinSetup_ready P patient session greeting key_invalid)%js w in
   Checkin.isAutoMode (checkinState w') = true /\
   Checkin.autoLabel (checkinView w') = "Auto On" /\
   Checkin.sessionId (checkinState w') = session /\
   Checkin.langCode (checkinState w') = code /\
   Checkin.messages (checkinView w') = [(assistant, greeting)] /\
   Checkin.typing (checkinView w') = 0 /\
   Checkin.inputValue (checkinView w') = "" /\
   Checkin.step (checkinView w') = "checkin-chat" /\
   Checkin.isListening (checkinState w') =
     (if hasSpeechSynthesis P then false else Checkin.isListening (checkinState w)) /\
   Checkin.isSpeaking (checkinState w') =
     (if hasSpeechSynthesis P then true else Checkin.isSpeaking (checkinState w)) /\
   synth w' =
     (if hasSpeechSynthesis P
      then [MkUtterance (uttCount w) CheckinLoop greeting (speechLang P code)]
      else synth w)) /\
  (let w' := exec (handleBookingSetup_ready P patient session language code greeting) w in
   Booking.isAutoMode (bookingState w') = Booking.isAutoMode (bookingState w) /\
   Booking.bookingSessionId (bookingState w') = session /\
   Booking.langCode (bookingState w') = code /\
   Booking.messages (bookingView w') = [(assistant, greeting)] /\
   Booking.cardHidden (bookingView w') = true /\
   Booking.step (bookingView w') = "booking-chat" /\
   Booking.isListening (bookingState w') = Booking.isListening (bookingState w) /\
   bookingRec w' = bookingRec w /\
   synth w' =
     (if hasSpeechSynthesis P
      then [MkUtterance (uttCount w) BookingLoop greeting (speechLang P code)]
      else synth w)).
Proof.
  platform P. world w. unfold speakable. simpl.
  intros Hs. split; revert Hs; js;
    cases; intros Hs; try discriminate Hs; try congruence; repeat split; reflexivity.
Qed.

Lemma session_start_witness :
  speakable full_browser "zh-cantonese" (uttCount page_loaded) = true /\
  synth (exec (handleCheckinSetup "Cantonese" "zh-cantonese" ;;
               handleCheckinSetup_ready full_browser (Some 1) (Some 7) "Nei hou" false)%js
           page_loaded) =
    [MkUtterance 0 CheckinLoop "Nei hou" "zh-HK"].
Proof.
  split; [reflexivity|].
  destruct (proj1 (session_start full_browser (Some 1) (Some 7) "Cantonese" "zh-cantonese"
                     "Nei hou" false page_loaded eq_refl))
    as (_ & _ & _ & _ & _ & _ & _ & _ & _ & _ & Hsynth).
  exact Hsynth.
Defined.

(** ** Stopping twice *)

(** X12. Each of the four stop functions is idempotent: calling it a
    second time changes nothing more, on any platform, also when the
    first call met a [rec.stop()] that throws. *)
Theorem stop_twice_is_stop_once (P : Platform) (w : World) :
  exec (stopCheckinVoice P) (exec (stopCheckinVoice P) w) = exec (stopCheckinVoice P) w /\
  exec (stopCheckinSpeaking P) (exec (stopCheckinSpeaking P) w)
    = exec (stopCheckinSpeaking P) w /\
  exec (stopBookingVoice P) (exec (stopBookingVoice P) w) = exec (stopBookingVoice P) w /\
  exec (stopBookingSpeaking P) (exec (stopBookingSpeaking P) w)
    = exec (stopBookingSpeaking P) w.
Proof.
  platform P. world w. repeat split; js; cases; reflexivity.
Qed.

(** ** Invariants of the event loop *)

Lemma step_keeps_one_utterance (P : Platform) (w : World) (ev : Event) :
  length (synth w) <= 1 -> length (synth (step P w ev)) <= 1.
Proof.
  platform P. world w. simpl. intros H.
  destruct ev as [[] ?|[]|[]|[]|[]|[]| ? | | ? ? ? ? | ? ? ? ? ?
                 | ? [[? ?]|] | ? [[? ? ? ? ? ? ? ?]|]
                 | [] ? | [] ? | [] ? | [] ? | [] ? ? | [] ? | [] ? ? | [] ? ];
    reduce; cases; simpl;
    first [ exact H | lia
          | etransitivity; [apply length_filter | exact H] ].
Qed.

Lemma turn_keeps_one_utterance (P : Platform) (w : World) (t : Turn) :
  length (synth w) <= 1 -> length (synth (turn P w t)) <= 1.
Proof.
  destruct t as [ev| | | | |]; [apply step_keeps_one_utterance| | | | |];
    platform P; world w; simpl; intros H;
    try (destruct data as [text st norm slots' conf ref date time]);
    reduce; cases; simpl; first [exact H | lia].
Qed.

(** X13. The queue of the synthesis engine never holds more than one
    utterance: every speak request cancels the queue before it adds its
    utterance, so whatever the user, the engines, the timers and the
    backend do, in whatever order and on whatever platform, a queue of at
    most one utterance stays so. *)
Theorem at_most_one_utterance_queued (P : Platform) (ts : list Turn) (w : World) :
  length (synth w) <= 1 -> length (synth (turns P ts w)) <= 1.
Proof.
  revert w. induction ts as [|t ts IH]; intros w H; [exact H|].
  change (turns P (t :: ts) w) with (turns P ts (turn P w t)).
  apply IH, turn_keeps_one_utterance, H.
Qed.

Lemma at_most_one_utterance_queued_witness :
  length (synth page_loaded) <= 1 /\
  length (synth (turns full_browser
                   [ Ev (CheckinSessionCreated (Some 1) (Some 7) "Hello, I am Aria." false);
                     Ev (BookingSessionCreated (Some 2) (Some 8) "English" "en" "Welcome.") ]
                   page_loaded)) <= 1.
Proof.
  split; [simpl; lia|].
  apply (at_most_one_utterance_queued full_browser). simpl. lia.
Defined.

Lemma step_keeps_flags_and_handles (P : Platform) (w : World) (ev : Event) :
  checkin_flags_match_handles w -> checkin_flags_match_handles (step P w ev).
Proof.
  platform P. world w. unfold checkin_flags_match_handles. simpl. intros [-> ->].
  destruct ev as [[] ?|[]|[]|[]|[]|[]| ? | | ? ? ? ? | ? ? ? ? ?
                 | ? [[? ?]|] | ? [[? ? ? ? ? ? ? ?]|]
                 | [] ? | [] ? | [] ? | [] ? | [] ? ? | [] ? | [] ? ? | [] ? ];
    reduce; cases; split; reflexivity.
Qed.

Lemma turn_keeps_flags_and_handles (P : Platform) (w : World) (t : Turn) :
  checkin_flags_match_handles w -> checkin_flags_match_handles (turn P w t).
Proof.
  destruct t as [ev| | | | |]; [apply step_keeps_flags_and_handles| | | | |];
    platform P; world w; unfold checkin_flags_match_handles; simpl; intros [-> ->];
    try (destruct data as [text st norm slots' conf ref date time]);
    reduce; cases; split; reflexivity.
Qed.

(** X14. In the check-in loop the flags and the handles agree after
    every sequence of turns: [isListening] is true exactly when
    [checkinRec] holds a recognizer, and [isSpeaking] is true exactly when
    [checkinUtterance] holds an utterance. *)
Theorem checkin_flags_follow_handles (P : Platform) (ts : list Turn) (w : World) :
  checkin_flags_match_handles w -> checkin_flags_match_handles (turns P ts w).
Proof.
  revert w. induction ts as [|t ts IH]; intros w H; [exact H|].
  change (turns P (t :: ts) w) with (turns P ts (turn P w t)).
  apply IH, turn_keeps_flags_and_handles, H.
Qed.

Lemma checkin_flags_follow_handles_witness :
  checkin_flags_match_handles page_loaded /\
  checkin_flags_match_handles checkin_listening.
Proof.
  assert (H : checkin_flags_match_handles page_loaded) by (split; reflexivity).
  split; [exact H|].
  exact (checkin_flags_follow_handles full_browser
           [ Ev (CheckinSessionCreated (Some 1) (Some 7) "Hello, I am Aria." false);
             Ev (UtteranceEnds CheckinLoop 0); Ev (TimerFires CheckinLoop 0) ]
           page_loaded H).
Defined.

Lemma settled_request_well_formed (n : nat) (l : list Request) :
  Forall well_formed_request l -> Forall well_formed_request (alter mark_settled n l).
Proof.
  intros H. apply Forall_alter; [exact H|]. intros [sid msg done] _ Hq. exact Hq.
Qed.

Lemma new_request_well_formed (sid : option nat) (text : string) (l : list Request) :
  Forall well_formed_request l ->
  truthyId sid = true ->
  Str.truthy (Str.trim text) = true ->
  Forall well_formed_request (l ++ [MkRequest sid (Str.trim text) false]).
Proof.
  intros H Hid Htext. apply Forall_app_2; [exact H|].
  constructor; [|constructor]. repeat split; simpl; [exact Hid | exact Htext | apply trim_idem].
Qed.

Lemma step_keeps_requests_well_formed (P : Platform) (w : World) (ev : Event) :
  Forall well_formed_request (requests (checkinHost w)) ->
  Forall well_formed_request (requests (bookingHost w)) ->
  Forall well_formed_request (requests (checkinHost (step P w ev))) /\
  Forall well_formed_request (requests (bookingHost (step P w ev))).
Proof.
  platform P. world w. simpl. intros Hc Hb.
  destruct ev as [[] ?|[]|[]|[]|[]|[]| ? | | ? ? ? ? | ? ? ? ? ?
                 | ? [[? ?]|] | ? [[? ? ? ? ? ? ? ?]|]
                 | [] ? | [] ? | [] ? | [] ? | [] ? ? | [] ? | [] ? ? | [] ? ];
    reduce;
    cases_with ltac:(first [progress cbv [or_typed] | rewrite trim_idem]);
    split;
    first [ assumption
          | apply settled_request_well_formed; assumption
          | apply new_request_well_formed; assumption ].
Qed.

Lemma turn_keeps_requests_well_formed (P : Platform) (w : World) (t : Turn) :
  Forall well_formed_request (requests (checkinHost w)) ->
  Forall well_formed_request (requests (bookingHost w)) ->
  Forall well_formed_request (requests (checkinHost (turn P w t))) /\
  Forall well_formed_request (requests (bookingHost (turn P w t))).
Proof.
  destruct t as [ev| | | | |]; [apply step_keeps_requests_well_formed| | | | |];
    platform P; world w; simpl; intros Hc Hb;
    try (destruct data as [text st norm slots' conf ref date time]);
    reduce; cases; split; assumption.
Qed.

(** X15. Every request the loops ever send to the conversation service
    names a session and carries a non-empty message without white space
    around it: whatever turns occur, if the requests issued so far are of
    that form, so are all the requests issued afterwards.  A request is
    never sent without a session id or with an empty message. *)
Theorem requests_are_well_formed (P : Platform) (ts : list Turn) (w : World) :
  Forall well_formed_request (requests (checkinHost w)) ->
  Forall well_formed_request (requests (bookingHost w)) ->
  Forall well_formed_request (requests (checkinHost (turns P ts w))) /\
  Forall well_formed_request (requests (bookingHost (turns P ts w))).
Proof.
  revert w. induction ts as [|t ts IH]; intros w Hc Hb; [split; assumption|].
  change (turns P (t :: ts) w) with (turns P ts (turn P w t)).
  destruct (turn_keeps_requests_well_formed P w t Hc Hb) as [Hc' Hb'].
  apply IH; assumption.
Qed.

Lemma requests_are_well_formed_witness :
  Forall well_formed_request (requests (checkinHost page_loaded)) /\
  Forall well_formed_request (requests (bookingHost page_loaded)) /\
  Forall well_formed_request (requests (checkinHost checkin_submitting)).
Proof.
  assert (H : Forall well_formed_request []) by constructor.
  split; [exact H|]. split; [exact H|].
  exact (proj1 (requests_are_well_formed full_browser
                  [ Ev (CheckinSessionCreated (Some 1) (Some 7) "Hello, I am Aria." false);
                    Ev (UserTogglesAutoMode CheckinLoop);
                    Ev (UserTypes CheckinLoop "I have a headache");
                    Ev (UserPressesEnter CheckinLoop) ]
                  page_loaded H H)).
Defined.

(** ** Escaping text for HTML *)

Lemma all_chars_app (p : ascii -> bool) (a b : string) :
  all_chars p (a ++ b) = all_chars p a && all_chars p b.
Proof.
  induction a as [|c a IH]; simpl; [reflexivity|].
  rewrite IH, andb_assoc. reflexivity.
Qed.

Lemma serializeText_no_angle_brackets (n : nat) :
  forall s, String.length s <= n ->
  all_chars (fun c => negb (Ascii.eqb c "<" || Ascii.eqb c ">")) (serializeText s) = true.
Proof.
  induction n as [|n IH]; intros [|c s] Hn; try reflexivity; simpl in Hn; [lia|].
  assert (Hs : String.length s <= n) by lia.
  cbn [serializeText].
  destruct (Ascii.eqb c "&") eqn:Eamp;
    [rewrite all_chars_app, (IH s Hs); reflexivity|].
  destruct (Ascii.eqb c "<") eqn:Elt;
    [rewrite all_chars_app, (IH s Hs); reflexivity|].
  destruct (Ascii.eqb c ">") eqn:Egt;
    [rewrite all_chars_app, (IH s Hs); reflexivity|].
  destruct (Ascii.eqb c (ascii_of_nat 194)) eqn:Ec2.
  - destruct s as [|d s']; [simpl; rewrite Elt, Egt; reflexivity|].
    destruct (Ascii.eqb d (ascii_of_nat 160)).
    + rewrite all_chars_app, IH; [reflexivity | simpl in Hs; lia].
    + cbn [all_chars]. rewrite Elt, Egt, (IH _ Hs). reflexivity.
  - cbn [all_chars]. rewrite Elt, Egt, (IH s Hs). reflexivity.
Qed.

(** X16. What [escapeHtml] returns never contains an angle bracket,
    whatever the text: no markup of the text survives into the page.  An
    empty or missing text gives the empty string. *)
Theorem escapeHtml_has_no_angle_brackets (text : option string) :
  all_chars (fun c => negb (Ascii.eqb c "<" || Ascii.eqb c ">")) (escapeHtml text) = true /\
  escapeHtml None = "" /\
  escapeHtml (Some "") = "".
Proof.
  split; [|split; reflexivity].
  destruct text as [t|]; [|reflexivity]. unfold escapeHtml.
  destruct (Str.truthy t); [|reflexivity].
  apply (serializeText_no_angle_brackets (String.length t)). lia.
Qed.

(** X17. [escapeHtml] keeps a text without ampersand, angle bracket and
    no-break space as it is; quotes in particular are not escaped, so the
    result is safe as element content only, not inside an attribute value. *)
Theorem escapeHtml_keeps_plain_text (t : string) :
  all_chars plain t = true -> escapeHtml (Some t) = t.
Proof.
  intros H. unfold escapeHtml. destruct t as [|c0 t0]; [reflexivity|].
  cbn [Str.truthy]. revert H. generalize (String c0 t0). clear.
  induction s as [|c s IH]; [reflexivity|].
  cbn [all_chars serializeText]. unfold plain at 1.
  destruct (Ascii.eqb c "&"); [discriminate|].
  destruct (Ascii.eqb c "<"); [discriminate|].
  destruct (Ascii.eqb c ">"); [discriminate|].
  destruct (Ascii.eqb c (ascii_of_nat 194)); [discriminate|].
  simpl. intros H. rewrite (IH H). reflexivity.
Qed.

Lemma escapeHtml_keeps_plain_text_witness :
  let quoted := String (ascii_of_nat 34) ("ok" ++ String (ascii_of_nat 34) " onclick='x'") in
  all_chars plain quoted = true /\
  escapeHtml (Some quoted) = quoted.
Proof.
  split; [reflexivity|]. apply escapeHtml_keeps_plain_text. reflexivity.
Defined.

(** ** The language select of the check-in view *)

Lemma concat_nonempty_groups (gs : list (string * list string)) :
  concat (map snd (List.filter (fun g => negb (Nat.eqb (length (snd g)) 0)) gs))
  = concat (map snd gs).
Proof.
  induction gs as [|[label items] gs IH]; [reflexivity|].
  cbn [List.filter snd]. destruct items as [|x items]; cbn; [exact IH|].
  rewrite IH. reflexivity.
Qed.

(** X18. The language select of the check-in view offers every language
    of the server's list exactly once and in the server's order, whatever
    the length of the list; it has at most three groups, and none of them
    is empty. *)
Theorem language_groups_partition (langs : list string) :
  languageOptions langs = langs /\
  Forall (fun group => snd group <> []) (languageGroups langs) /\
  length (languageGroups langs) <= 3.
Proof.
  split; [|split].
  - unfold languageOptions, languageGroups. rewrite concat_nonempty_groups.
    unfold slice. cbn [map snd concat]. rewrite app_nil_r.
    change (9 - 4) with 5. change (4 - 0) with 4. change (drop 0 langs) with langs.
    replace (drop 9 langs) with (drop 5 (drop 4 langs)) by (rewrite drop_drop; reflexivity).
    rewrite (take_drop 5 (drop 4 langs)). apply take_drop.
  - unfold languageGroups. apply List.Forall_forall. intros [label items] Hin.
    apply List.filter_In in Hin. destruct Hin as [_ Hne].
    destruct items; [discriminate | discriminate].
  - unfold languageGroups.
    etransitivity; [apply List.filter_length_le | simpl; lia].
Qed.

(** ** Completing a check-in *)

(** X19. [completeCheckin] does nothing at all when no session is open
    or when the user declines the confirmation.  Otherwise it tears the
    check-in loop down before the summary is requested: speech is
    cancelled, listening stopped, both handles released, the indicator
    hidden.  It keeps the session id and the pending timers. *)
Theorem complete_checkin_teardown (P : Platform) (confirmed : bool) (w : World) :
  (truthyId (Checkin.sessionId (checkinState w)) = false \/ confirmed = false ->
   completeCheckin P confirmed w = (Normal tt, w)) /\
  (truthyId (Checkin.sessionId (checkinState w)) = true ->
   let w' := exec (completeCheckin P true) w in
   returns (completeCheckin P true) w = true /\
   Checkin.isSpeaking (checkinState w') = false /\
   Checkin.isListening (checkinState w') = false /\
   checkinRec w' = None /\
   checkinUtterance w' = None /\
   Checkin.indicatorHidden (checkinView w') = true /\
   synth w' = (if hasSpeechSynthesis P then [] else synth w) /\
   Checkin.sessionId (checkinState w') = Checkin.sessionId (checkinState w) /\
   timers (checkinHost w') = timers (checkinHost w) /\
   requests (checkinHost w') = requests (checkinHost w)).
Proof.
  platform P. world w. simpl. split.
  - intros [H | ->]; js; rewrite ?H; js; cases; reflexivity.
  - intros H. js. rewrite H. js. cases; repeat split; reflexivity.
Qed.

Lemma complete_checkin_teardown_witness :
  truthyId (Checkin.sessionId (checkinState page_loaded)) = false /\
  completeCheckin full_browser true page_loaded = (Normal tt, page_loaded) /\
  truthyId (Checkin.sessionId (checkinState checkin_listening)) = true /\
  checkinRec (exec (completeCheckin full_browser true) checkin_listening) = None.
Proof.
  split; [reflexivity|]. split.
  - apply (proj1 (complete_checkin_teardown full_browser true page_loaded)).
    left. reflexivity.
  - split; [reflexivity|].
    destruct (proj2 (complete_checkin_teardown full_browser true checkin_listening) eq_refl)
      as (_ & _ & _ & Hrec & _).
    exact Hrec.
Defined.

(** ** The language of the booking loop *)

(** X20. A change of the language select of the booking view takes
    effect at the next speak and listen request: the utterance queued by
    [bookingSpeakThenListen] and the recognizer created by
    [startBookingListening] carry the speech language of the code of the
    language chosen last, not one fixed when the session began (for the
    utterance, if the code is one the speak function finds a voice for
    without throwing).  For a language the server did not list the code
    is [en], and the speech language [en-SG]. *)
Theorem booking_language_takes_effect (P : Platform)
    (languages : list (string * Language)) (lang text : string) (w : World) :
  let w1 := exec (updateBookingDialects languages lang) w in
  let tag := speechLang P (languageCode languages lang) in
  Booking.langName (bookingState w1) = lang /\
  (hasSpeechSynthesis P = true ->
   speakable P (languageCode languages lang) (uttCount w) = true ->
   synth (exec (bookingSpeakThenListen P text) w1) =
     [MkUtterance (uttCount w) BookingLoop text tag]) /\
  (hasSpeechRecognition P = true ->
   Booking.isListening (bookingState w) = false ->
   rec_lang <$> recognizers (bookingHost (exec (startBookingListening P) w1))
                  !! length (recognizers (bookingHost w)) = Some tag) /\
  (lookupLanguage languages lang = None -> tag = "en-SG").
Proof.
  assert (Hmissing : lookupLanguage languages lang = None ->
                     speechLang P (languageCode languages lang) = "en-SG")
    by (unfold languageCode; intros ->; reflexivity).
  revert Hmissing. unfold updateBookingDialects.
  generalize (languageCode languages lang) (dialectOptions languages lang).
  intros c options Hmissing.
  platform P. world w. cbv zeta. simpl hasSpeechSynthesis. simpl hasSpeechRecognition.
  unfold speakable. simpl.
  split; [reflexivity|]. split; [|split].
  - intros ->. js. cases; intros Hs; try discriminate Hs; try congruence; reflexivity.
  - simpl. intros -> ->. js. cases_new; reflexivity.
  - exact Hmissing.
Qed.

Lemma booking_language_takes_effect_witness :
  let languages := [ ("English", MkLanguage "en" ["Singlish"]);
                     ("Cantonese", MkLanguage "zh-cantonese" []);
                     ("Esperanto", MkLanguage "constructor" []) ] in
  hasSpeechSynthesis full_browser = true /\
  speakable full_browser (languageCode languages "Cantonese") (uttCount booking_speaking)
    = true /\
  synth (exec (bookingSpeakThenListen full_browser "Nei hou")
           (exec (updateBookingDialects languages "Cantonese") booking_speaking)) =
    [MkUtterance 1 BookingLoop "Nei hou" "zh-HK"] /\
  hasSpeechRecognition full_browser = true /\
  Booking.isListening (bookingState booking_speaking) = false /\
  rec_lang <$> recognizers
                 (bookingHost (exec (startBookingListening full_browser)
                                 (exec (updateBookingDialects languages "Esperanto")
                                    booking_speaking))) !! 0
    = Some "function Object() { [native code] }" /\
  lookupLanguage languages "Klingon" = None /\
  speechLang full_browser (languageCode languages "Klingon") = "en-SG".
Proof.
  split; [reflexivity|]. split; [reflexivity|]. split; [|split; [reflexivity|split]].
  - exact (proj1 (proj2 (booking_language_takes_effect full_browser
                           [ ("English", MkLanguage "en" ["Singlish"]);
                             ("Cantonese", MkLanguage "zh-cantonese" []);
                             ("Esperanto", MkLanguage "constructor" []) ]
                           "Cantonese" "Nei hou" booking_speaking)) eq_refl eq_refl).
  - reflexivity.
  - split.
    + exact (proj1 (proj2 (proj2 (booking_language_takes_effect full_browser
                           [ ("English", MkLanguage "en" ["Singlish"]);
                             ("Cantonese", MkLanguage "zh-cantonese" []);
                             ("Esperanto", MkLanguage "constructor" []) ]
                           "Esperanto" "" booking_speaking))) eq_refl eq_refl).
    + split; [reflexivity|].
      exact (proj2 (proj2 (proj2 (booking_language_takes_effect full_browser
                           [ ("English", MkLanguage "en" ["Singlish"]);
                             ("Cantonese", MkLanguage "zh-cantonese" []);
                             ("Esperanto", MkLanguage "constructor" []) ]
                           "Klingon" "" page_loaded))) eq_refl).
Defined.

(** ** The stop functions *)

(** X22. From a loop at rest each of its stop functions returns normally
    and changes nothing that can be observed: the flags, the elements of
    the view, the timers, the requests and the queue of the synthesis
    engine are as they were, also when a stale recognizer handle is left
    from a session that ended by itself.  In any state and on any
    platform, also one whose [rec.stop()] throws, [stopCheckinVoice] and
    [stopBookingVoice] return normally, reset the listening flag, release
    the recognizer handle and clear the indicators of their view.  The
    two speaking stops return normally and reset the speaking flag;
    [stopCheckinSpeaking] releases the utterance handle and leaves the
    whole view as it is, [stopBookingSpeaking] hides the indicator and
    keeps [bookingUtterance]. *)
Theorem stops_are_safe (P : Platform) (w : World) :
  (checkinIdle w ->
   returns (stopCheckinVoice P) w = true /\
   returns (stopCheckinSpeaking P) w = true /\
   checkinObservable (exec (stopCheckinVoice P) w) = checkinObservable w /\
   checkinObservable (exec (stopCheckinSpeaking P) w) = checkinObservable w) /\
  (bookingIdle w ->
   returns (stopBookingVoice P) w = true /\
   returns (stopBookingSpeaking P) w = true /\
   bookingObservable (exec (stopBookingVoice P) w) = bookingObservable w /\
   bookingObservable (exec (stopBookingSpeaking P) w) = bookingObservable w) /\
  (let w' := exec (stopCheckinVoice P) w in
   returns (stopCheckinVoice P) w = true /\
   Checkin.isListening (checkinState w') = false /\
   checkinRec w' = None /\
   Checkin.indicatorHidden (checkinView w') = true /\
   Checkin.micRecording (checkinView w') = false /\
   Checkin.voiceStatusActive (checkinView w') = false) /\
  (let w' := exec (stopBookingVoice P) w in
   returns (stopBookingVoice P) w = true /\
   Booking.isListening (bookingState w') = false /\
   bookingRec w' = None /\
   Booking.indicatorHidden (bookingView w') = true /\
   Booking.micActive (bookingView w') = false) /\
  (let w' := exec (stopCheckinSpeaking P) w in
   returns (stopCheckinSpeaking P) w = true /\
   Checkin.isSpeaking (checkinState w') = false /\
   checkinUtterance w' = None /\
   checkinView w' = checkinView w /\
   synth w' = (if hasSpeechSynthesis P then [] else synth w)) /\
  (let w' := exec (stopBookingSpeaking P) w in
   returns (stopBookingSpeaking P) w = true /\
   Booking.isSpeaking (bookingState w') = false /\
   Booking.indicatorHidden (bookingView w') = true /\
   bookingUtterance w' = bookingUtterance w /\
   synth w' = (if hasSpeechSynthesis P then [] else synth w)).
Proof.
  platform P. world w.
  unfold checkinIdle, bookingIdle, checkinObservable, bookingObservable.
  split; [|split].
  - simpl. intros (-> & -> & -> & -> & -> & ->). js. cases; repeat split; reflexivity.
  - simpl. intros (-> & -> & -> & -> & ->). js. cases; repeat split; reflexivity.
  - js. cases; repeat split; reflexivity.
Qed.

Lemma stops_are_safe_witness :
  let ended := step full_browser booking_listening (RecognitionEnds BookingLoop 0) in
  checkinIdle page_loaded /\
  checkinObservable (exec (stopCheckinVoice full_browser) page_loaded)
    = checkinObservable page_loaded /\
  bookingIdle ended /\
  bookingRec ended = Some 0 /\
  bookingObservable (exec (stopBookingVoice throwing_engine) ended)
    = bookingObservable ended.
Proof.
  assert (Hc : checkinIdle page_loaded) by (repeat split; reflexivity).
  assert (Hb : bookingIdle (step full_browser booking_listening (RecognitionEnds BookingLoop 0)))
    by (repeat split; reflexivity).
  split; [exact Hc|]. split.
  - apply (proj1 (stops_are_safe full_browser page_loaded)), Hc.
  - split; [exact Hb|]. split; [reflexivity|].
    apply (proj1 (proj2 (stops_are_safe throwing_engine
                           (step full_browser booking_listening
                              (RecognitionEnds BookingLoop 0))))), Hb.
Defined.

(** ** Two corners of the page *)

(** The marking of the active step.  The booking chat is open when a
    check-in session is created: [showCheckinStep] takes the marking from
    the steps of the booking view too, and none of them is active until
    [showBookingStep] runs again. *)
Example checkin_step_unmarks_booking_step :
  let w := run full_browser
             [ BookingSessionCreated (Some 2) (Some 8) "English" "en" "Welcome to MedBridge." ]
             page_loaded in
  let w' := step full_browser w
              (CheckinSessionCreated (Some 1) (Some 7) "Hello, I am Aria." false) in
  Booking.step (bookingView w) = "booking-chat" /\
  Checkin.step (checkinView w') = "checkin-chat" /\
  Booking.step (bookingView w') = "" /\
  Booking.step (bookingView (step full_browser w' (UserNavigates "booking")))
    = "booking-setup".
Proof. vm_compute. repeat split; reflexivity. Qed.

(** A language code that names a property of [Object.prototype].  The
    lookup finds the inherited function, the search for a voice throws,
    and the [try] block of the caller takes it for a failure: the booking
    session is announced as not started although its chat is shown, and a
    reply is followed by the apology; nothing is spoken. *)
Example inherited_language_code :
  let w := run full_browser
             [ BookingSessionCreated (Some 2) (Some 8) "Esperanto" "constructor" "Bonvenon." ]
             page_loaded in
  let w' := run full_browser
              [ UserTypes BookingLoop "morgau"; UserPressesEnter BookingLoop;
                BookingRequestSettles 0
                  (Fulfilled (MkBookingReply "Kiam?" "collecting" "" [] false "" "" "")) ]
              w in
  speakable full_browser "constructor" 0 = false /\
  Booking.step (bookingView w) = "booking-chat" /\
  alerts w = ["Failed to start booking. Please check your connection."] /\
  synth w = [] /\
  Booking.messages (bookingView w') =
    [ (assistant, "Bonvenon."); (user, "morgau"); (assistant, "Kiam?");
      (assistant, "[Error communicating with server. Please try again.]") ] /\
  synth w' = [].
Proof. vm_compute. repeat split; reflexivity. Qed.
